(** * cerbero source handlers: a shallow embedding

    This development embeds the git-backed source handlers of
    [cerbero/build/source.py] ([GitCache], [LocalTarball], [Git]) and the
    functions of [cerbero/utils/git.py] they drive, and states the
    properties of the git synchronisation logic ([GitCache.fetch],
    [GitCache._checkout]), of the patch loops and of [built_version]
    over that embedding.

    Python code becomes state-passing code in a small state-and-exception
    monad.  The state is the part of the machine the handlers touch: the
    git repositories found on disk, what the configured remotes can
    deliver, the directory tree seen through [os.path], the messages
    printed through [cerbero.utils.messages], and the calls handed to the
    [git] binary and to the [shell] module. *)

From stdpp Require Import gmap strings list fin_maps.

Open Scope string_scope.
Open Scope list_scope.

(** ** Python exceptions and the effect monad *)

Inductive exn : Type :=
| FatalError (msg : string)        (* cerbero.errors.FatalError *)
| AttributeError (attr : string)   (* lookup of a name a module does not bind *)
| OSError (path : string).         (* raised by os.listdir / os.mkdir *)

Inductive outcome (A : Type) : Type :=
| Return (a : A)
| Raise (e : exn).
Arguments Return {A} a.
Arguments Raise {A} e.

(** A statement run in state [S]: it returns or raises, and in both
    cases leaves a state behind (Python keeps every effect that happened
    before the [raise]). *)
Definition M (S A : Type) : Type := S -> outcome A * S.

Definition ret {S A} (a : A) : M S A := fun s => (Return a, s).
Definition raise {S A} (e : exn) : M S A := fun s => (Raise e, s).
Definition bind {S A B} (c : M S A) (k : A -> M S B) : M S B :=
  fun s => match c s with
           | (Return a, s') => k a s'
           | (Raise e, s') => (Raise e, s')
           end.
Definition modify {S} (f : S -> S) : M S unit := fun s => (Return tt, f s).

(** [try: body except FatalError, e: handler(e)] *)
Definition try_except_FatalError {S A} (body : M S A) (handler : exn -> M S A) : M S A :=
  fun s => match body s with
           | (Raise (FatalError msg), s') => handler (FatalError msg) s'
           | r => r
           end.

(** [try: body except: handler] (a bare except catches everything) *)
Definition try_except {S A} (body : M S A) (handler : M S A) : M S A :=
  fun s => match body s with
           | (Raise _, s') => handler s'
           | r => r
           end.

Notation "'let*' x ':=' c 'in' k" := (bind c (fun x => k))
  (at level 10, x name, c at level 100, k at level 200).
Notation "c ;;; k" := (bind c (fun _ => k))
  (at level 100, k at level 200, right associativity).

(** [for x in xs: body(x)] *)
Fixpoint for_each {S A} (xs : list A) (body : A -> M S unit) : M S unit :=
  match xs with
  | [] => ret tt
  | x :: xs' => body x ;;; for_each xs' body
  end.

(** ** Strings and paths as Python has them *)

(** [s.startswith(p)] *)
Definition startswith (s p : string) : bool := String.prefix p s.

(** [s.endswith(p)] *)
Definition endswith (s p : string) : bool :=
  String.prefix (String.rev p) (String.rev s).

(** [os.path.isabs] of posixpath *)
Definition isabs (p : string) : bool := startswith p "/".

(** [os.path.join(a, b)] of posixpath *)
Definition path_join (a b : string) : string :=
  if startswith b "/" then b
  else if bool_decide (a = "") || endswith a "/" then a +:+ b
  else a +:+ "/" +:+ b.

(** Python's [x or y] on strings where [x] may be [None] *)
Definition py_or (x : option string) (y : string) : string :=
  match x with
  | Some s => if bool_decide (s = "") then y else s
  | None => y
  end.

(** ** The machine the handlers run on *)

(** A commit object: its parents and the tree (path to content) it records. *)
Record Commit : Type := mkCommit {
  parents : list string;
  tree : gmap string string
}.

(** A git repository.  Hashes and ref names are strings, as the Python
    code sees them.  [rebase_orig] is [Some (head, worktree)] while a
    rebase is stopped half-way: what [git rebase --abort] goes back to. *)
Record Repo : Type := mkRepo {
  objects : gmap string Commit;
  refs : gmap string string;
  remote_urls : gmap string string;
  HEAD : option string;
  worktree : gmap string string;
  rebase_orig : option (option string * gmap string string)
}.

Definition empty_repo : Repo :=
  mkRepo ∅ ∅ ∅ None ∅ None.

Definition set_objects (o : gmap string Commit) (r : Repo) : Repo :=
  mkRepo o (refs r) (remote_urls r) (HEAD r) (worktree r) (rebase_orig r).
Definition set_refs (f : gmap string string) (r : Repo) : Repo :=
  mkRepo (objects r) f (remote_urls r) (HEAD r) (worktree r) (rebase_orig r).
Definition set_remote_urls (u : gmap string string) (r : Repo) : Repo :=
  mkRepo (objects r) (refs r) u (HEAD r) (worktree r) (rebase_orig r).
Definition set_checkout (h : option string) (t : gmap string string)
    (o : option (option string * gmap string string)) (r : Repo) : Repo :=
  mkRepo (objects r) (refs r) (remote_urls r) h t o.

Inductive Node : Type := File | Dir.

#[global] Instance Node_eq_dec : EqDecision Node.
Proof. solve_decision. Defined.

Inductive Msg : Type :=
| action (text : string)     (* m.action *)
| message (text : string)    (* m.message *)
| warning (text : string).   (* m.warning *)

(** What reaches the [git] binary or the [shell] module. *)
Inductive Call : Type :=
| GitInit (git_dir : string)
| GitFetchAll (git_dir : string)
| GitResetHard (git_dir commit : string)
| GitShowHash (git_dir commit : string)
| GitRemoteAdd (git_dir name url : string)
| GitRemoteSetUrl (git_dir name url : string)
| GitAm (git_dir patch : string)
| GitReadRef (git_dir ref : string)
| GitWriteRef (git_dir ref commit : string)
| GitRevList (git_dir range : string)
| GitIsAncestor (git_dir a b : string)
| GitRebase (git_dir commit : string)
| GitRebaseAbort (git_dir : string)
| GitClone (git_dir local_git_dir : string)
| GitFetchRefs (git_dir : string)
| GitCheckoutB (git_dir branch commit : string)
| ShellCall (cmd cmd_dir : string)
| ShellUnpack (filepath output_dir : string)
| ShellApplyPatch (arg1 arg2 : string) (strip : option Z).

#[global] Instance Call_eq_dec : EqDecision Call.
Proof. solve_decision. Defined.

Record World : Type := mkWorld {
  fs : gmap string Node;          (* the directory tree, by full path *)
  repos : gmap string Repo;       (* the repository living in a directory *)
  network : gmap string Repo;     (* url to the remote repository it serves now *)
  broken : list Call;             (* unpack / patch calls that exit non-zero *)
  log : list Msg;                 (* messages printed so far, oldest first *)
  trace : list Call               (* calls made so far, oldest first *)
}.

Definition set_fs (f : gmap string Node) (w : World) : World :=
  mkWorld f (repos w) (network w) (broken w) (log w) (trace w).
Definition set_repos (rs : gmap string Repo) (w : World) : World :=
  mkWorld (fs w) rs (network w) (broken w) (log w) (trace w).
Definition add_log (m : Msg) (w : World) : World :=
  mkWorld (fs w) (repos w) (network w) (broken w) (log w ++ [m]) (trace w).
Definition add_trace (c : Call) (w : World) : World :=
  mkWorld (fs w) (repos w) (network w) (broken w) (log w) (trace w ++ [c]).

(** The command line [git.py] builds for a call ([GIT = 'git']); for
    the helpers [git.py] lacks and for the tools of [shell], a label. *)
Definition cmdline (c : Call) : string :=
  match c with
  | GitInit _ => "git init"
  | GitFetchAll _ => "git fetch --all"
  | GitResetHard _ commit => "git reset --hard " +:+ commit
  | GitShowHash _ commit => "git show -s --pretty=%H " +:+ commit
  | GitRemoteAdd _ name url => "git remote add " +:+ name +:+ " " +:+ url
  | GitRemoteSetUrl _ name url => "git remote set-url " +:+ name +:+ " " +:+ url
  | GitAm _ patch => "git am --ignore-whitespace " +:+ patch
  | GitReadRef _ ref => "read_ref " +:+ ref
  | GitWriteRef _ ref commit => "write_ref " +:+ ref +:+ " " +:+ commit
  | GitRevList _ range => "rev_list " +:+ range
  | GitIsAncestor _ a b => "revision_is_ancestor " +:+ a +:+ " " +:+ b
  | GitRebase _ commit => "rebase " +:+ commit
  | GitRebaseAbort _ => "rebase_abort"
  | GitClone _ local_git_dir => "git clone -s --no-checkout " +:+ local_git_dir +:+ " ."
  | GitFetchRefs _ => "git fetch origin refs/remotes/*:refs/remotes/*"
  | GitCheckoutB _ branch commit => "git checkout -B " +:+ branch +:+ " " +:+ commit
  | ShellCall cmd _ => cmd
  | ShellUnpack filepath output_dir => "unpack " +:+ filepath +:+ " " +:+ output_dir
  | ShellApplyPatch a b _ => "apply_patch " +:+ a +:+ " " +:+ b
  end.

(** ** What git does to a repository *)

(** Names a revision expression may stand for, in git's search order. *)
Definition ref_candidates (rev : string) : list string :=
  [rev; "refs/" +:+ rev; "refs/tags/" +:+ rev; "refs/heads/" +:+ rev;
   "refs/remotes/" +:+ rev].

Fixpoint first_ref (rs : gmap string string) (cands : list string) : option string :=
  match cands with
  | [] => None
  | c :: cs => match rs !! c with
               | Some h => Some h
               | None => first_ref rs cs
               end
  end.

(** [git rev-parse]: [HEAD] names the checked-out commit, a full hash
    of the object store names itself, anything else is looked up among
    the refs. *)
Definition rev_parse (r : Repo) (rev : string) : option string :=
  if bool_decide (rev = "HEAD") then HEAD r
  else match objects r !! rev with
       | Some _ => Some rev
       | None => first_ref (refs r) (ref_candidates rev)
       end.

Definition resolve_commit (r : Repo) (rev : string) : option (string * Commit) :=
  match rev_parse r rev with
  | Some h => match objects r !! h with
              | Some c => Some (h, c)
              | None => None
              end
  | None => None
  end.

(** The commits reachable from [h], [h] first.  A path without repeats
    visits at most [size objs] commits, which is the fuel [history] gives. *)
Fixpoint reach (fuel : nat) (objs : gmap string Commit) (h : string) : list string :=
  match fuel with
  | O => []
  | S n => match objs !! h with
           | Some c => h :: flat_map (reach n objs) (parents c)
           | None => []
           end
  end.

Definition history (r : Repo) (h : string) : list string :=
  remove_dups (reach (size (objects r)) (objects r) h).

(** [git merge-base --is-ancestor a b] *)
Definition is_ancestor (r : Repo) (a b : string) : bool :=
  match resolve_commit r a, resolve_commit r b with
  | Some (ha, _), Some (hb, _) => bool_decide (ha ∈ history r hb)
  | _, _ => false
  end.

(** The commits of [to] that are not in the history of [from], newest first. *)
Definition commits_between (r : Repo) (from to : string) : list string :=
  filter (fun h => h ∉ history r from) (history r to).

(** [s] without its prefix [p], when it has it. *)
Fixpoint remove_prefix (p s : string) : option string :=
  match p, s with
  | EmptyString, _ => Some s
  | String a p', String b s' => if bool_decide (a = b) then remove_prefix p' s' else None
  | String _ _, EmptyString => None
  end.

(** [git fetch] from one remote: its objects, and its branches as
    remote-tracking refs. *)
Definition track (name : string) (remote : Repo) (rs : gmap string string)
    : gmap string string :=
  map_fold (fun k h acc =>
              match remove_prefix "refs/heads/" k with
              | Some b => <["refs/remotes/" +:+ name +:+ "/" +:+ b := h]> acc
              | None => acc
              end) rs (refs remote).

(** [git fetch --all]: [None] (a non-zero exit) when a remote cannot be reached. *)
Definition op_fetch_all (net : gmap string Repo) (r : Repo) : option unit * Repo :=
  map_fold (fun name url acc =>
              match net !! url with
              | Some remote =>
                  (acc.1, set_refs (track name remote (refs acc.2))
                            (set_objects (objects acc.2 ∪ objects remote) acc.2))
              | None => (None, acc.2)
              end) (Some tt, r) (remote_urls r).

(** [git reset --hard commit] *)
Definition op_reset_hard (commit : string) (r : Repo) : option unit * Repo :=
  match resolve_commit r commit with
  | Some (h, c) => (Some tt, set_checkout (Some h) (tree c) (rebase_orig r) r)
  | None => (None, r)
  end.

(** [git show -s --pretty=%H commit]: [%H] is the full commit hash. *)
Definition op_show_hash (commit : string) (r : Repo) : option string * Repo :=
  match resolve_commit r commit with
  | Some (h, _) => (Some h, r)
  | None => (None, r)
  end.

Definition op_remote_add (name url : string) (r : Repo) : option unit * Repo :=
  match remote_urls r !! name with
  | Some _ => (None, r)
  | None => (Some tt, set_remote_urls (<[name := url]> (remote_urls r)) r)
  end.

Definition op_remote_set_url (name url : string) (r : Repo) : option unit * Repo :=
  match remote_urls r !! name with
  | Some _ => (Some tt, set_remote_urls (<[name := url]> (remote_urls r)) r)
  | None => (None, r)
  end.

(** What a commit changed with respect to its first parent: for each
    path it touched, the content before and after ([None]: no such file). *)
Definition changes (objs : gmap string Commit) (c : Commit)
    : gmap string (option string * option string) :=
  let base := match parents c with
              | p :: _ => match objs !! p with Some pc => tree pc | None => ∅ end
              | [] => ∅
              end in
  merge (fun new old => if decide (new = old) then None else Some (old, new))
        (tree c) base.

(** A change applies cleanly on a tree that has, for every touched path,
    either the content the change started from or the one it produces. *)
Definition applies_cleanly (ch : gmap string (option string * option string))
    (t : gmap string string) : bool :=
  bool_decide (map_Forall (fun p on => t !! p = on.1 ∨ t !! p = on.2) ch).

Definition apply_changes (ch : gmap string (option string * option string))
    (t : gmap string string) : gmap string string :=
  merge (fun chg cur => match chg with Some on => on.2 | None => cur end) ch t.

(** The name of the commit made by replaying [c] on top of [tip]. *)
Definition replayed (c tip : string) : string := c +:+ "@" +:+ tip.

(** Replay [todo] (oldest first) on [tip].  The last component is [None]
    when every commit went through and [Some t] when one did not apply:
    [t] is the half-merged working tree git stops with. *)
Fixpoint replay (objs : gmap string Commit) (todo : list string)
    (tip : string) (tip_tree : gmap string string)
    : gmap string Commit * string * gmap string string * option (gmap string string) :=
  match todo with
  | [] => (objs, tip, tip_tree, None)
  | h :: todo' =>
      match objs !! h with
      | None => replay objs todo' tip tip_tree
      | Some c =>
          if bool_decide (parents c = [tip]) then replay objs todo' h (tree c)
          else
            let ch := changes objs c in
            let t' := apply_changes ch tip_tree in
            if applies_cleanly ch tip_tree then
              let h' := replayed h tip in
              replay (<[h' := mkCommit [tip] t']> objs) todo' h' t'
            else (objs, tip, tip_tree, Some t')
      end
  end.

(** [git rebase commit]: refuses when a rebase is already under way or
    a revision does not exist; otherwise replays the commits of HEAD that
    [commit] lacks on top of [commit], and on a conflict stops half-way
    with a non-zero exit. *)
Definition op_rebase (commit : string) (r : Repo) : option unit * Repo :=
  match rebase_orig r, resolve_commit r commit, HEAD r with
  | None, Some (t, tc), Some h =>
      match replay (objects r) (reverse (commits_between r t h)) t (tree tc) with
      | (objs, tip, tip_tree, None) =>
          (Some tt, set_checkout (Some tip) tip_tree None (set_objects objs r))
      | (objs, tip, _, Some dirty) =>
          (None, set_checkout (Some tip) dirty (Some (HEAD r, worktree r))
                   (set_objects objs r))
      end
  | _, _, _ => (None, r)
  end.

(** [git rebase --abort]: back to where the stopped rebase started;
    a non-zero exit when there is none. *)
Definition op_rebase_abort (r : Repo) : option unit * Repo :=
  match rebase_orig r with
  | Some (h, t) => (Some tt, set_checkout h t None r)
  | None => (None, r)
  end.

(** The two sides of a range [a..b]; an empty side is [HEAD]. *)
Definition parse_range (range : string) : string * string :=
  let side s := if bool_decide (s = "") then "HEAD" else s in
  match String.index 0 ".." range with
  | Some i => (side (String.substring 0 i range),
               side (String.substring (i + 2) (String.length range - (i + 2)) range))
  | None => (side range, "HEAD")
  end.

Definition op_rev_list (range : string) (r : Repo) : option (list string) * Repo :=
  let '(a, b) := parse_range range in
  match resolve_commit r a, resolve_commit r b with
  | Some (ha, _), Some (hb, _) => (Some (commits_between r ha hb), r)
  | _, _ => (None, r)
  end.

Definition op_write_ref (ref commit : string) (r : Repo) : option unit * Repo :=
  match resolve_commit r commit with
  | Some (h, _) => (Some tt, set_refs (<["refs/" +:+ ref := h]> (refs r)) r)
  | None => (None, r)
  end.

(** ** The command bridge

    [cerbero.utils.shell] runs the commands; it is not among the sources.
    Modelled from the spec: "runs a named VCS binary with arguments in a
    given working directory, returns captured standard output, and either
    raises on nonzero exit or returns a tolerant failure signal depending
    on a caller-supplied flag". *)

(** Run a git command in [git_dir]: the call is recorded, the repository
    found there is updated, and the result is [None] on a non-zero exit
    (also when [git_dir] holds no repository). *)
Definition run_git {A} (c : Call) (git_dir : string)
    (op : Repo -> option A * Repo) : M World (option A) :=
  fun w =>
    let w1 := add_trace c w in
    match repos w1 !! git_dir with
    | Some r => ((Return (op r).1), set_repos (<[git_dir := (op r).2]> (repos w1)) w1)
    | None => (Return None, w1)
    end.

(** A call that raises on a non-zero exit (no tolerance asked for). *)
Definition checked {A} (c : Call) (m : M World (option A)) : M World A :=
  let* x := m in
  match x with
  | Some a => ret a
  | None => raise (FatalError (cmdline c))
  end.

(** A tool whose effect on the tree is not followed here: the call is
    recorded and fails when the machine says so. *)
Definition run_tool (c : Call) : M World unit :=
  fun w =>
    let w1 := add_trace c w in
    if bool_decide (c ∈ broken w) then (Raise (FatalError (cmdline c)), w1)
    else (Return tt, w1).

(** [cerbero.utils.messages]: what is printed is kept, in order. *)
Definition m_action (text : string) : M World unit := modify (add_log (action text)).
Definition m_message (text : string) : M World unit := modify (add_log (message text)).
Definition m_warning (text : string) : M World unit := modify (add_log (warning text)).

(** ** [os] and [os.path] *)

Module os.

(** [os.path.exists] *)
Definition exists_ (p : string) : M World bool :=
  fun w => (Return (bool_decide (is_Some (fs w !! p))), w).

(** [os.path.isdir] *)
Definition isdir (p : string) : M World bool :=
  fun w => (Return (bool_decide (fs w !! p = Some Dir)), w).

(** The name [x] for which [path] is [dir/x], with no further separator. *)
Definition child_of (dir path : string) : option string :=
  match remove_prefix (if endswith dir "/" then dir else dir +:+ "/") path with
  | Some x =>
      if bool_decide (x = "") then None
      else match String.index 0 "/" x with
           | Some _ => None
           | None => Some x
           end
  | None => None
  end.

(** [os.listdir] *)
Definition listdir (p : string) : M World (list string) :=
  fun w => match fs w !! p with
           | Some Dir => (Return (omap (child_of p) (map_to_list (fs w)).*1), w)
           | _ => (Raise (OSError p), w)
           end.

(** [os.mkdir] *)
Definition mkdir (p : string) : M World unit :=
  fun w => match fs w !! p with
           | Some _ => (Raise (OSError p), w)
           | None => (Return tt, set_fs (<[p := Dir]> (fs w)) w)
           end.

End os.

Module shutil.

(** Whether [p] is [dir] or lies below it. *)
Definition within (dir p : string) : bool :=
  bool_decide (p = dir) || startswith p (if endswith dir "/" then dir else dir +:+ "/").

(** [shutil.rmtree] *)
Definition rmtree (dir : string) : M World unit :=
  fun w => match fs w !! dir with
           | Some Dir =>
               (Return tt,
                set_repos (filter (fun kv => within dir kv.1 = false) (repos w))
                  (set_fs (filter (fun kv => within dir kv.1 = false) (fs w)) w))
           | _ => (Raise (OSError dir), w)
           end.

End shutil.

(** ** [cerbero/utils/git.py] *)

Module git.

(** The names the module binds: its imports, its two constants and
    its functions, in the order of the file. *)
Definition names : list string :=
  ["os"; "shutil"; "Platform"; "shell"; "CLEAN_ENV"; "GIT";
   "init"; "clean"; "list_tags"; "create_tag"; "delete_tag"; "fetch";
   "checkout"; "get_hash"; "get_checkout_branch"; "local_checkout";
   "add_remote"; "check_line_endings"; "init_directory"; "apply_patch"].

(** [mkdir -p git_dir] then [git init] in it. *)
Definition init (git_dir : string) : M World unit :=
  fun w =>
    match fs w !! git_dir with
    | Some File => (Raise (FatalError ("mkdir -p " +:+ git_dir)), w)
    | _ =>
        let w1 := add_trace (GitInit git_dir) (set_fs (<[git_dir := Dir]> (fs w)) w) in
        match repos w1 !! git_dir with
        | Some _ => (Return tt, w1)
        | None => (Return tt, set_repos (<[git_dir := empty_repo]> (repos w1)) w1)
        end
    end.

(** [shell.call('git fetch --all', git_dir, fail=fail)] *)
Definition fetch (git_dir : string) (fail : bool) : M World unit :=
  let c := GitFetchAll git_dir in
  let* net := (fun w => (Return (network w), w)) in
  if fail then checked c (run_git c git_dir (op_fetch_all net))
  else run_git c git_dir (op_fetch_all net) ;;; ret tt.

(** [shell.call('git reset --hard %s' % commit, git_dir)] *)
Definition checkout (git_dir commit : string) : M World unit :=
  let c := GitResetHard git_dir commit in
  checked c (run_git c git_dir (op_reset_hard commit)).

(** [shell.check_call('git show -s --pretty=%%H %s' % commit, git_dir)];
    the value is the hash git prints. *)
Definition get_hash (git_dir commit : string) : M World string :=
  let c := GitShowHash git_dir commit in
  checked c (run_git c git_dir (op_show_hash commit)).

(** [git remote add], and [git remote set-url] when that raises. *)
Definition add_remote (git_dir name url : string) : M World unit :=
  try_except
    (let c := GitRemoteAdd git_dir name url in
     checked c (run_git c git_dir (op_remote_add name url)))
    (let c := GitRemoteSetUrl git_dir name url in
     checked c (run_git c git_dir (op_remote_set_url name url))).

(** [git clone -s --no-checkout local_git_dir .], run in [git_dir]:
    a new repository sharing the objects of the local one, with its
    branches as remote-tracking refs and nothing checked out. *)
Definition clone (git_dir local_git_dir : string) : M World unit :=
  fun w =>
    let c := GitClone git_dir local_git_dir in
    let w1 := add_trace c w in
    match fs w1 !! git_dir, repos w1 !! git_dir, repos w1 !! local_git_dir with
    | Some Dir, None, Some src =>
        let r := mkRepo (objects src) (track "origin" src ∅)
                        {["origin" := local_git_dir]} (HEAD src) ∅ None in
        (Return tt, set_repos (<[git_dir := r]> (repos w1)) w1)
    | _, _, _ => (Raise (FatalError (cmdline c)), w1)
    end.

(** [git fetch origin refs/remotes/*:refs/remotes/*]: the
    remote-tracking refs of the repository cloned from, as they are. *)
Definition fetch_refs (git_dir : string) : M World unit :=
  fun w =>
    let c := GitFetchRefs git_dir in
    let w1 := add_trace c w in
    match repos w1 !! git_dir with
    | Some r =>
        match remote_urls r !! "origin" with
        | Some url =>
            match repos w1 !! url with
            | Some src =>
                let theirs := filter (fun kv => startswith kv.1 "refs/remotes/" = true)
                                     (refs src) in
                (Return tt,
                 set_repos (<[git_dir := set_refs (theirs ∪ refs r) r]> (repos w1)) w1)
            | None => (Raise (FatalError (cmdline c)), w1)
            end
        | None => (Raise (FatalError (cmdline c)), w1)
        end
    | None => (Raise (FatalError (cmdline c)), w1)
    end.

(** [git checkout -B branch commit] *)
Definition op_checkout_B (branch commit : string) (r : Repo) : option unit * Repo :=
  match resolve_commit r commit with
  | Some (h, c) =>
      (Some tt, set_checkout (Some h) (tree c) (rebase_orig r)
                  (set_refs (<["refs/heads/" +:+ branch := h]> (refs r)) r))
  | None => (None, r)
  end.

Definition local_checkout (git_dir local_git_dir commit : string) : M World unit :=
  let branch_name := "cerbero_build" in
  clone git_dir local_git_dir ;;;
  fetch_refs git_dir ;;;
  let c := GitCheckoutB git_dir branch_name commit in
  checked c (run_git c git_dir (op_checkout_B branch_name commit)).

(** [shell.call('git am --ignore-whitespace %s' % patch, git_dir)] *)
Definition apply_patch (patch git_dir : string) : M World unit :=
  run_tool (GitAm git_dir patch).

End git.

(** ** Helpers [source.py] expects of the [git] module

    [source.py] calls [git.read_ref], [git.write_ref], [git.rev_list],
    [git.revision_is_ancestor], [git.rebase] and [git.rebase_abort];
    [git.py] has no such functions ([git.names]).  They are given here
    the behaviour the specification describes for them. *)

Module sync_helpers.

Definition names : list string :=
  ["read_ref"; "write_ref"; "rev_list"; "revision_is_ancestor";
   "rebase"; "rebase_abort"].

(** Modelled from the spec: [read_ref] is missing from git.py.  "Read
    the CheckoutMarker", "a single named reference inside the
    repository's metadata store": the hash stored under [refs/<ref>],
    [None] when absent. *)
Definition read_ref (git_dir ref : string) : M World (option string) :=
  run_git (GitReadRef git_dir ref) git_dir
          (fun r => (refs r !! ("refs/" +:+ ref), r)).

(** Modelled from the spec: [write_ref] is missing from git.py.
    "Write/overwrite the CheckoutMarker to targetRevision". *)
Definition write_ref (git_dir ref commit : string) : M World unit :=
  let c := GitWriteRef git_dir ref commit in
  checked c (run_git c git_dir (op_write_ref ref commit)).

(** Modelled from the spec: [rev_list] is missing from git.py.  For
    the range [marker..]: the "commits reachable from HEAD but not from
    marker". *)
Definition rev_list (git_dir range : string) : M World (list string) :=
  let c := GitRevList git_dir range in
  checked c (run_git c git_dir (op_rev_list range)).

(** Modelled from the spec: [revision_is_ancestor] is missing from
    git.py.  "revision A is an ancestor of B if B's history includes A". *)
Definition revision_is_ancestor (git_dir a b : string) : M World bool :=
  let* x := run_git (GitIsAncestor git_dir a b) git_dir
                    (fun r => (Some (is_ancestor r a b), r)) in
  ret (default false x).

(** Modelled from the spec: [rebase] is missing from git.py.  "replay
    local commits on top of targetRevision via rebase"; raises on a
    conflict. *)
Definition rebase (git_dir commit : string) : M World unit :=
  let c := GitRebase git_dir commit in
  checked c (run_git c git_dir (op_rebase commit)).

(** Modelled from the spec: [rebase_abort] is missing from git.py.
    "abort the rebase (restoring the pre-attempt state exactly)". *)
Definition rebase_abort (git_dir : string) : M World unit :=
  let c := GitRebaseAbort git_dir in
  checked c (run_git c git_dir op_rebase_abort).

End sync_helpers.

(** ** [shell], as far as the handlers use it

    The tools below change the build tree, which is not followed; what
    is kept of them is the call and whether it fails. *)

Module shell.

(** [shell.call(cmd, cmd_dir, fail=False)] of a command whose effect
    is not followed here. *)
Definition call_tolerant (cmd cmd_dir : string) : M World unit :=
  modify (add_trace (ShellCall cmd cmd_dir)).

(** [shell.unpack(filepath, output_dir)] *)
Definition unpack (filepath output_dir : string) : M World unit :=
  run_tool (ShellUnpack filepath output_dir).

(** [shell.apply_patch(a, b)] and [shell.apply_patch(a, b, strip)]:
    the arguments are recorded in the order the caller passes them. *)
Definition apply_patch (arg1 arg2 : string) (strip : option Z) : M World unit :=
  run_tool (ShellApplyPatch arg1 arg2 strip).

End shell.

(** ** [cerbero/build/source.py] *)

(** The configuration object, as far as the handlers read it.  Its
    class is not among the sources. *)
Record Config : Type := mkConfig {
  git_root : string;
  local_sources : string;
  sources : string;
  platform : string;
  fetch_resets_repository : bool;
  recipe_commits : gmap string string
}.

(** Modelled from the spec: [config.recipe_commit(name)] belongs to
    the configuration class.  "recipe-level commit override (string or
    absent)". *)
Definition recipe_commit (c : Config) (name : string) : option string :=
  recipe_commits c !! name.

(** What a recipe declares (class attributes, with the defaults of
    [Source] and [GitCache] when it declares nothing). *)
Record Recipe : Type := mkRecipe {
  recipe_name : string;
  recipe_version : string;
  recipe_remotes : option (gmap string string);   (* GitCache.remotes = None *)
  recipe_commit_attr : option string;             (* GitCache.commit = None *)
  recipe_patches : list string;                   (* Source.patches = [] *)
  recipe_strip : Z;                               (* Source.strip = 1 *)
  recipe_build_dir : string;
  recipe_patch_dir : string;
  recipe_package_name : string
}.

(** A source handler once its [__init__] has run. *)
Record Source : Type := mkSource {
  name : string;
  version : string;
  config : Config;
  remotes : gmap string string;
  repo_dir : string;
  commit : string;
  patches : list string;
  strip : Z;
  build_dir : string;
  patch_dir : string;
  package_name : string;
  platform_patches_dir : string;
  unpack_dir : string
}.

(** [GitCache.checkout_rev] *)
Definition checkout_rev : string := "cerbero-checkout".

(** Modelled from the spec: [relative_path] is a method of the recipe
    class, which is not among the sources.  "Patch paths that are not
    absolute are resolved relative to the recipe's declared patch
    directory". *)
Definition relative_path (self : Source) (patch : string) : string :=
  path_join (patch_dir self) patch.

Module GitCache.

(** [GitCache.__init__]: the remotes with [origin] defaulted, and the
    cache directory.  [commit] is what the subclass leaves in
    [self.commit]. *)
Definition __init__ (rcp : Recipe) (cfg : Config) (commit : string) : Source :=
  let remotes := default ∅ (recipe_remotes rcp) in
  let remotes :=
    match remotes !! "origin" with
    | Some _ => remotes
    | None => <["origin" := git_root cfg +:+ "/" +:+ recipe_name rcp +:+ ".git"]> remotes
    end in
  mkSource (recipe_name rcp) (recipe_version rcp) cfg remotes
           (path_join (local_sources cfg) (recipe_name rcp)) commit
           (recipe_patches rcp) (recipe_strip rcp) (recipe_build_dir rcp)
           (recipe_patch_dir rcp) (recipe_package_name rcp) "" "".

Section with_git_module.

(** The names bound in the module [source.py] imports as [git]. *)
Variable git_ns : list string.

(** [git.<attr>(...)]: the attribute is looked up, then called. *)
Definition git_attr {A} (attr : string) (call : M World A) : M World A :=
  if bool_decide (attr ∈ git_ns) then call
  else raise (AttributeError attr).

Definition _get_checkout_recipe_rev (self : Source) : M World (option string) :=
  let* checkout_recipe_rev :=
    git_attr "read_ref" (sync_helpers.read_ref (repo_dir self) checkout_rev) in
  match checkout_recipe_rev with
  | None =>
      m_warning ("refs/" +:+ checkout_rev +:+ " does not exist") ;;;
      ret None
  | Some rev =>
      (* sanity check *)
      let* ok := git_attr "revision_is_ancestor"
                   (sync_helpers.revision_is_ancestor (repo_dir self) rev "HEAD") in
      if negb ok then
        m_warning ("refs/" +:+ checkout_rev +:+ " seems out of sync "
                   +:+ "with the current checkout, ignoring it") ;;;
        ret None
      else ret (Some rev)
  end.

Definition msg_local_commits : string :=
  "The repository contains local commits which "
  +:+ "can't be easily rebased on top of the new recipe revision".

Definition msg_unknown_history : string :=
  "Couldn't figure out whether updating to the new "
  +:+ "revision would lose history. Bailing since fetch_resets_repository "
  +:+ "is set to False".

(** Lines 195 to 232 of [_checkout]: what is done once
    [have_local_commits] and [moving_forward] are known. *)
Definition _checkout_update (self : Source) (commit head : string)
    (have_local_commits moving_forward : bool) : M World string :=
  if negb have_local_commits then
    m_message ("Repository has no local commits, "
               +:+ "checking out revision " +:+ commit) ;;;
    git_attr "checkout" (git.checkout (repo_dir self) commit) ;;;
    ret commit
  else if moving_forward then
    try_except_FatalError
      (git_attr "rebase" (sync_helpers.rebase (repo_dir self) commit))
      (fun e =>
         git_attr "rebase_abort" (sync_helpers.rebase_abort (repo_dir self)) ;;;
         raise e) ;;;
    ret commit
  else if fetch_resets_repository (config self) then
    m_warning ("Rebase not possible. "
               +:+ "Potentially discarding commits since "
               +:+ "fetch_resets_repository is set to True. (Was at "
               +:+ head +:+ ")") ;;;
    git_attr "checkout" (git.checkout (repo_dir self) commit) ;;;
    ret commit
  else
    (* we couldn't update the repo *)
    (if have_local_commits then m_warning msg_local_commits
     else m_warning msg_unknown_history) ;;;
    raise (FatalError ("Could not update repository " +:+ repo_dir self
                       +:+ " to revision " +:+ commit)).

Definition _checkout (self : Source) (new_repo : bool) : M World string :=
  let commit := py_or (recipe_commit (config self) (name self)) (commit self) in
  if new_repo then
    m_action ("Checking out git repository " +:+ repo_dir self
              +:+ " at revision " +:+ commit) ;;;
    (* new repo, we can safely checkout *)
    git_attr "checkout" (git.checkout (repo_dir self) commit) ;;;
    ret commit
  else
    m_action ("Updating git repository " +:+ repo_dir self
              +:+ " to revision " +:+ commit) ;;;
    let* head := git_attr "get_hash" (git.get_hash (repo_dir self) "HEAD") in
    if bool_decide (commit = head) then
      (* we're already at the target revision *)
      ret commit
    else
      (* get the revision we checked out during the last fetch, if known *)
      let* checkout_recipe_rev := _get_checkout_recipe_rev self in
      match checkout_recipe_rev with
      | Some rev =>
          m_message ("Current checkout recipe revision " +:+ rev
                     +:+ ", HEAD " +:+ head) ;;;
          let* revs := git_attr "rev_list"
                         (sync_helpers.rev_list (repo_dir self) (rev +:+ "..")) in
          (* len(...) > 0 *)
          let have_local_commits := bool_decide (0 < length revs) in
          let* moving_forward :=
            git_attr "revision_is_ancestor"
              (sync_helpers.revision_is_ancestor (repo_dir self) rev commit) in
          _checkout_update self commit head have_local_commits moving_forward
      | None =>
          (* we don't know for sure, so assume there might be unpushed
             revisions *)
          let have_local_commits := true in
          let* moving_forward :=
            git_attr "revision_is_ancestor"
              (sync_helpers.revision_is_ancestor (repo_dir self) "HEAD" commit) in
          _checkout_update self commit head have_local_commits moving_forward
      end.

(** Lines 235 to 243 of [fetch]: the repository is created when
    missing, the remotes are registered and fetched.  The value is
    [new_repo]. *)
Definition _fetch_remotes (self : Source) : M World bool :=
  let* there := os.exists_ (repo_dir self) in
  let* new_repo :=
    if negb there then git_attr "init" (git.init (repo_dir self)) ;;; ret true
    else ret false in
  for_each (map_to_list (remotes self))
           (fun ru => git_attr "add_remote"
                        (git.add_remote (repo_dir self) ru.1 ru.2)) ;;;
  (* fetch remote branches *)
  git_attr "fetch" (git.fetch (repo_dir self) false) ;;;
  ret new_repo.

Definition fetch (self : Source) (checkout : bool) : M World unit :=
  let* new_repo := _fetch_remotes self in
  if checkout then
    let* commit := _checkout self new_repo in
    git_attr "write_ref" (sync_helpers.write_ref (repo_dir self) checkout_rev commit) ;;;
    m_message ("Checked out revision " +:+ commit)
  else ret tt.

Definition built_version (self : Source) : M World string :=
  let* h := git_attr "get_hash" (git.get_hash (repo_dir self) (commit self)) in
  ret (version self +:+ "+git~" +:+ h).

End with_git_module.

End GitCache.

Module LocalTarball.

Definition BRANCH_PREFIX : string := "sdk".

Definition __init__ (rcp : Recipe) (cfg : Config) : Source :=
  let self := GitCache.__init__ rcp cfg
                ("origin" +:+ "/" +:+ BRANCH_PREFIX +:+ "-" +:+ recipe_version rcp) in
  mkSource (name self) (version self) (config self) (remotes self) (repo_dir self)
           (commit self) (patches self) (strip self) (build_dir self)
           (patch_dir self) (package_name self)
           (path_join (repo_dir self) (platform cfg)) (sources cfg).

(** The value is what the method leaves in [self.tarball_path]. *)
Definition _find_tarball (self : Source) : M World string :=
  let* entries := os.listdir (repo_dir self) in
  let tarball := filter (fun x => startswith x (package_name self) = true) entries in
  match tarball with
  | [t] => ret (path_join (repo_dir self) t)
  | _ => raise (FatalError ("The local repository " +:+ repo_dir self
                            +:+ " do not have a valid tarball"))
  end.

Definition _apply_patches (self : Source) (patches_dir : string) : M World unit :=
  let* isdir := os.isdir patches_dir in
  if negb isdir then ret tt
  else
    (* list patches in this directory *)
    let* entries := os.listdir patches_dir in
    let patches := map (path_join patches_dir)
                       (filter (fun x => endswith x ".patch" = true) entries) in
    (* apply patches *)
    for_each patches (fun patch => shell.apply_patch (build_dir self) patch None).

(** Lines 271 to 276 of [extract]: everything before the platform
    patches. *)
Definition _extract_common (self : Source) : M World unit :=
  let* there := os.exists_ (build_dir self) in
  (if negb there then os.mkdir (build_dir self) else ret tt) ;;;
  let* tarball_path := _find_tarball self in
  shell.unpack tarball_path (unpack_dir self) ;;;
  (* apply common patches *)
  _apply_patches self (repo_dir self).

Definition extract (self : Source) : M World unit :=
  _extract_common self ;;;
  (* apply platform patches *)
  _apply_patches self (platform_patches_dir self).

End LocalTarball.

Module Git.

Definition __init__ (rcp : Recipe) (cfg : Config) : Source :=
  let commit := default ("origin/sdk-" +:+ recipe_version rcp) (recipe_commit_attr rcp) in
  (* For forced commits in the config *)
  let commit := py_or (recipe_commit cfg (recipe_name rcp)) commit in
  GitCache.__init__ rcp cfg commit.

Section with_git_module.

Variable git_ns : list string.

(** One turn of the loop [for patch in self.patches] of [extract]. *)
Definition apply_one (self : Source) (patch : string) : M World unit :=
  let patch := if negb (isabs patch) then relative_path self patch else patch in
  if bool_decide (strip self = 1%Z) then
    GitCache.git_attr git_ns "apply_patch" (git.apply_patch patch (build_dir self))
  else shell.apply_patch patch (build_dir self) (Some (strip self)).

(** [Platform.WINDOWS], a constant of [cerbero.config]. *)
Variable WINDOWS : string.

(** Lines 314 to 331 of [extract]: the build directory is looked
    at and, unless it is up to date, made anew from the cache.  The
    value is [False] where [extract] returns [False] at once. *)
Definition _extract_checkout (self : Source) : M World bool :=
  let* there := os.exists_ (build_dir self) in
  let* unchanged :=
    if there then
      (* fix read-only permissions *)
      (if bool_decide (platform (config self) = WINDOWS)
       then shell.call_tolerant "chmod -R +w .git/" (build_dir self)
       else ret tt) ;;;
      let* same :=
        try_except
          (let* commit_hash :=
             GitCache.git_attr git_ns "get_hash"
               (git.get_hash (repo_dir self) (commit self)) in
           let* checkout_hash :=
             GitCache.git_attr git_ns "get_hash"
               (git.get_hash (build_dir self) "HEAD") in
           ret (bool_decide (commit_hash = checkout_hash)
                && bool_decide (patches self = [])))
          (ret false) in
      if same then ret true
      else shutil.rmtree (build_dir self) ;;; ret false
    else ret false in
  if unchanged then ret false
  else
    let* there := os.exists_ (build_dir self) in
    (if negb there then os.mkdir (build_dir self) else ret tt) ;;;
    m_action ("Extracting to " +:+ build_dir self) ;;;
    (* checkout the current version *)
    GitCache.git_attr git_ns "local_checkout"
      (git.local_checkout (build_dir self) (repo_dir self) (commit self)) ;;;
    ret true.

Definition extract (self : Source) : M World bool :=
  let* go_on := _extract_checkout self in
  if go_on then
    for_each (patches self) (apply_one self) ;;;
    ret true
  else ret false.

End with_git_module.

End Git.

(** ** Vocabulary of the properties *)

(** The [git] module as [source.py] needs it: what [git.py] binds,
    together with the six helpers it lacks. *)
Definition git_with_sync_helpers : list string :=
  git.names ++ sync_helpers.names.

(** The revision [_checkout] brings the repository to (its local [commit]). *)
Definition target_revision (self : Source) : string :=
  py_or (recipe_commit (config self) (name self)) (commit self).

(** The CheckoutMarker of a repository. *)
Definition marker (r : Repo) : option string :=
  refs r !! ("refs/" +:+ checkout_rev).

(** What a run left in the cache: HEAD, the marker, the working tree. *)
Definition left_in_cache (self : Source) (w : World)
    : option (option string * option string * gmap string string) :=
  (fun r => (HEAD r, refs r !! ("refs/" +:+ checkout_rev), worktree r))
    <$> repos w !! repo_dir self.

(** The character [.] *)
Definition dot : Ascii.ascii := Ascii.ascii_of_nat 46.

(** A name without a dot in it, as hashes are. *)
Fixpoint dotless (s : string) : bool :=
  match s with
  | EmptyString => true
  | String a s' => negb (Ascii.eqb a dot) && dotless s'
  end.

(** What [rev_list] answers for the range [m..]: the commits reachable
    from HEAD but not from [m] (lemma [local_commits_meaning]). *)
Definition local_commits (r : Repo) (m : string) : option (list string) :=
  (op_rev_list (m +:+ "..") r).1.

(** The repository found in the cache directory of [self]. *)
Definition cache (self : Source) (w : World) : option Repo :=
  repos w !! repo_dir self.

(** The marker [_get_checkout_recipe_rev] lets through: the one stored,
    when it is an ancestor of HEAD. *)
Definition known_marker (r : Repo) : option string :=
  match marker r with
  | Some m => if is_ancestor r m "HEAD" then Some m else None
  | None => None
  end.

(** [git rebase rev] would stop with a non-zero exit. *)
Definition rebase_stops (r : Repo) (rev : string) : Prop :=
  (op_rebase rev r).1 = None.

(** Spec wording, "synchronize(...) -> resolvedCommitHash": the value
    of [_checkout] on an existing repository is the hash the target
    resolves to. *)
Definition returns_resolved_hash (self : Source) (w : World) : Prop :=
  exists r h c,
    cache self w = Some r /\
    resolve_commit r (target_revision self) = Some (h, c) /\
    (GitCache._checkout git_with_sync_helpers self false w).1 = Return h.

(** Spec wording, "return it unchanged -- no mutation": a fetch leaves
    the cached repository as it found it. *)
Definition leaves_cache_untouched (self : Source) (w : World) : Prop :=
  cache self (GitCache.fetch git_with_sync_helpers self true w).2 = cache self w.

(** A statement that only adds calls satisfying [P] to the trace. *)
Definition adds_only {A} (P : Call -> Prop) (c : M World A) : Prop :=
  forall w, exists l, trace (c w).2 = trace w ++ l /\ Forall P l.

(** A property of the machine that a statement keeps, however it ends. *)
Definition preserves {A} (I : World -> Prop) (c : M World A) : Prop :=
  forall w, I w -> I (c w).2.

(** Properties that only read the log, resp. only the trace. *)
Definition log_only (I : World -> Prop) : Prop :=
  forall w w', log w' = log w -> I w -> I w'.

Definition never_logged (m : Msg) (w : World) : Prop := m ∉ log w.

(** What a statement may return. *)
Definition yields {A} (c : M World A) (P : A -> Prop) : Prop :=
  forall w a w', c w = (Return a, w') -> P a.

(** Spec wording, "short hash of resolved commit": the abbreviated
    form of a hash, its first seven characters. *)
Definition short_hash (h : string) : string := String.substring 0 7 h.

(** Spec wording, "version + short hash of resolved commit", in the
    layout [built_version] uses. *)
Definition built_version_spec (version h : string) : string :=
  version +:+ "+git~" +:+ short_hash h.

(** The call one declared patch leads to. *)
Definition patch_call (self : Source) (patch : string) : Call :=
  let p := if isabs patch then patch else relative_path self patch in
  if bool_decide (strip self = 1%Z) then GitAm (build_dir self) p
  else ShellApplyPatch p (build_dir self) (Some (strip self)).

Definition is_patch_call (c : Call) : bool :=
  match c with
  | GitAm _ _ | ShellApplyPatch _ _ _ => true
  | _ => false
  end.

Definition not_a_patch (c : Call) : Prop := is_patch_call c = false.

(** The [*.patch] entries of a directory, as full paths, in listing
    order; none when it is not a directory. *)
Definition patch_files (f : gmap string Node) (dir : string) : list string :=
  match f !! dir with
  | Some Dir => map (path_join dir)
                    (filter (fun x => endswith x ".patch" = true)
                            (omap (os.child_of dir) (map_to_list f).*1))
  | _ => []
  end.

(** ** A small repository to run the handlers on

    [c0 <- c1 <- c2] is upstream history, [L] and [X] are local commits
    on top of [c1]; [X] touches the file [c2] added, [L] does not. *)
Module Example.

Definition t0 : gmap string string := {["a.c" := "v0"]}.
Definition t1 : gmap string string := {["a.c" := "v1"]}.
Definition t2 : gmap string string := {["a.c" := "v1"; "b.c" := "w2"]}.
Definition tL : gmap string string := {["a.c" := "v1"; "l.c" := "local"]}.
Definition tX : gmap string string := {["a.c" := "v1"; "b.c" := "mine"]}.

Definition objs : gmap string Commit :=
  {["c0" := mkCommit [] t0; "c1" := mkCommit ["c0"] t1;
    "c2" := mkCommit ["c1"] t2; "L" := mkCommit ["c1"] tL;
    "X" := mkCommit ["c1"] tX]}.

Definition origin_url : string := "git://example.org/pkg.git".

(** A cache checked out at [head], with the marker at [mark]. *)
Definition repo (head : string) (mark : option string) : Repo :=
  mkRepo objs
         (match mark with
          | Some m => {["refs/cerbero-checkout" := m;
                        "refs/remotes/origin/sdk-1.0" := "c2"]}
          | None => {["refs/remotes/origin/sdk-1.0" := "c2"]}
          end)
         {["origin" := origin_url]} (Some head)
         (match objs !! head with Some c => tree c | None => ∅ end) None.

Definition cfg (resets : bool) : Config :=
  mkConfig "git://example.org" "/cache" "/src" "linux" resets ∅.

Definition recipe (commit : option string) (patches : list string) (strip : Z) : Recipe :=
  mkRecipe "pkg" "1.0" None commit patches strip "/src/pkg-1.0" "/recipes/pkg" "pkg".

(** A [Git] source pinned at [commit]. *)
Definition source (resets : bool) (commit : string) : Source :=
  Git.__init__ (recipe (Some commit) [] 1) (cfg resets).

(** A machine whose cache directory holds [r]; no remote answers. *)
Definition world (r : Repo) : World :=
  mkWorld {["/cache/pkg" := Dir]} {["/cache/pkg" := r]} ∅ [] [] [].

(** A machine with no cache yet, and [origin] serving the history. *)
Definition fresh : World :=
  mkWorld {["/cache" := Dir]} ∅
          {[origin_url := mkRepo objs {["refs/heads/sdk-1.0" := "c2"]} ∅ (Some "c2") t2 None]}
          [] [] [].

(** A [Git] source with two declared patches, one of them given by
    an absolute path. *)
Definition patched_source (strip : Z) : Source :=
  Git.__init__ (recipe (Some "c2") ["a.patch"; "/abs/b.patch"] strip) (cfg false).

Definition build_world : World :=
  mkWorld {["/cache/pkg" := Dir; "/src" := Dir]}
          {["/cache/pkg" := repo "c2" (Some "c2")]} ∅ [] [] [].

(** A cache directory of a [LocalTarball]: the archive, two common
    patches, and one patch for [linux]. *)
Definition tarball_fs : gmap string Node :=
  {["/cache/pkg" := Dir; "/cache/pkg/pkg-1.0.tar.gz" := File;
    "/cache/pkg/0001-a.patch" := File; "/cache/pkg/0002-b.patch" := File;
    "/cache/pkg/README" := File; "/cache/pkg/linux" := Dir;
    "/cache/pkg/linux/0003-l.patch" := File; "/src" := Dir]}.

Definition tarball_source : Source :=
  LocalTarball.__init__ (recipe None [] 1) (cfg false).

Definition tarball_world (f : gmap string Node) : World :=
  mkWorld f ∅ ∅ [] [] [].

(** A repository whose one commit has a forty-digit hash. *)
Definition long_hash : string := "0123456789abcdef0123456789abcdef01234567".

Definition hashed_repo : Repo :=
  mkRepo {[long_hash := mkCommit [] t0]} ∅ ∅ (Some long_hash) t0 None.

End Example.

(** ** The classification [_checkout] works from

    [have_local_commits] and [moving_forward] as lines 179 to 193 of
    [_checkout] compute them in a repository [r]; the first is [None]
    when [rev_list] fails. *)
Definition have_local_commits (r : Repo) : option bool :=
  match known_marker r with
  | Some m => (fun revs => bool_decide (0 < length revs)) <$> local_commits r m
  | None => Some true
  end.

Definition moving_forward (self : Source) (r : Repo) : bool :=
  match known_marker r with
  | Some m => is_ancestor r m (target_revision self)
  | None => is_ancestor r "HEAD" (target_revision self)
  end.

(** Calls that throw away what is checked out. *)
Definition is_reset (c : Call) : bool :=
  match c with
  | GitResetHard _ _ => true
  | _ => false
  end.

Definition not_a_reset (c : Call) : Prop := is_reset c = false.

(** The calls [_checkout] makes on an existing repository before it
    decides; all of them only read. *)
Definition reads (self : Source) (r : Repo) : list Call :=
  GitShowHash (repo_dir self) "HEAD"
  :: match marker r with
     | Some m => [GitReadRef (repo_dir self) checkout_rev;
                  GitIsAncestor (repo_dir self) m "HEAD"]
     | None => [GitReadRef (repo_dir self) checkout_rev]
     end
  ++ match known_marker r with
     | Some m => [GitRevList (repo_dir self) (m +:+ "..");
                  GitIsAncestor (repo_dir self) m (target_revision self)]
     | None => [GitIsAncestor (repo_dir self) "HEAD" (target_revision self)]
     end.

(** The calls [LocalTarball._apply_patches] makes. *)
Definition patch_of (self : Source) (c : Call) : Prop :=
  exists p, c = ShellApplyPatch (build_dir self) p None.

(** What [Git.extract] compares before it keeps a build tree: the hash
    of the pinned commit in the cache and the hash of HEAD in the build
    tree, when both are there. *)
Definition pinned_and_built (self : Source) (w : World) : option (string * string) :=
  match repos w !! repo_dir self ≫= (fun r => resolve_commit r (commit self)),
        repos w !! build_dir self ≫= (fun r => resolve_commit r "HEAD") with
  | Some (h, _), Some (h', _) => Some (h, h')
  | _, _ => None
  end.

(** [chmod -R +w .git/], run on Windows only. *)
Definition chmod_calls (WINDOWS : string) (self : Source) : list Call :=
  if bool_decide (platform (config self) = WINDOWS)
  then [ShellCall "chmod -R +w .git/" (build_dir self)] else [].

(** Lines 326 to 331 of [Git.extract]: the build tree is made from the
    cache. *)
Definition rebuild (git_ns : list string) (self : Source) : M World bool :=
  let* there := os.exists_ (build_dir self) in
  (if negb there then os.mkdir (build_dir self) else ret tt) ;;;
  m_action ("Extracting to " +:+ build_dir self) ;;;
  (* checkout the current version *)
  GitCache.git_attr git_ns "local_checkout"
    (git.local_checkout (build_dir self) (repo_dir self) (commit self)) ;;;
  ret true.

(** ** More of [cerbero/utils/git.py]

    [init_directory] and [list_tags].  The commands [git add] and
    [git commit] are tools whose effect on the repository is not
    followed: the call is recorded and fails when the machine says so. *)

(** The characters [str.strip()] removes: tab, line feed, vertical
    tab, form feed, carriage return and space. *)
Definition is_space (a : Ascii.ascii) : bool :=
  bool_decide (Ascii.nat_of_ascii a ∈ [9; 10; 11; 12; 13; 32]).

(** [s.lstrip()] *)
Fixpoint py_lstrip (s : string) : string :=
  match s with
  | EmptyString => EmptyString
  | String a s' => if is_space a then py_lstrip s' else s
  end.

(** [s.rstrip()] *)
Fixpoint py_rstrip (s : string) : string :=
  match s with
  | EmptyString => EmptyString
  | String a s' =>
      let t := py_rstrip s' in
      if is_space a && bool_decide (t = "") then "" else String a t
  end.

(** [s.strip()] *)
Definition py_strip (s : string) : string := py_lstrip (py_rstrip s).

(** The line feed *)
Definition newline : Ascii.ascii := Ascii.ascii_of_nat 10.

(** [s.split(sep)] for a separator of one character; the value is
    never the empty list. *)
Fixpoint py_split (sep : Ascii.ascii) (s : string) : list string :=
  match s with
  | EmptyString => [""]
  | String a s' =>
      if Ascii.eqb a sep then "" :: py_split sep s'
      else match py_split sep s' with
           | piece :: pieces => String a piece :: pieces
           | [] => [String a ""]
           end
  end.

(** The names under [refs/tags/] of a repository. *)
Definition tag_names (r : Repo) : list string :=
  omap (remove_prefix "refs/tags/") (map_to_list (refs r)).*1.

(** [git tag -l]: what git prints, one tag on each line. *)
Definition op_tag_list (r : Repo) : option string * Repo :=
  (Some (foldr (fun t out => t +:+ String newline out) "" (tag_names r)), r).

(** Modelled from the spec: [shell.check_call] is not among the
    sources.  "returns captured standard output", and "fails with a
    process error unless tolerant is set, in which case failure is
    reported as an empty/absent result rather than raised"; the result
    of a tolerated failure is taken to be the empty output. *)
Definition check_call (c : Call) (git_dir : string)
    (op : Repo -> option string * Repo) (fail : bool) : M World string :=
  if fail then checked c (run_git c git_dir op)
  else let* out := run_git c git_dir op in ret (default "" out).

Module git_tools.


(** The value is the stripped output itself when it is empty, and the
    list of its lines otherwise. *)
Definition list_tags (git_dir : string) (fail : bool) : M World (string + list string) :=
  let* tags := check_call (ShellCall "git tag -l" git_dir) git_dir op_tag_list fail in
  let tags := py_strip tags in
  if negb (bool_decide (tags = "")) then ret (inr (py_split newline tags))
  else ret (inl tags).


End git_tools.

(** A name git accepts for a tag has no white space in it and is not empty. *)
Fixpoint spaceless (s : string) : bool :=
  match s with
  | EmptyString => true
  | String a s' => negb (is_space a) && spaceless s'
  end.

Definition tag_like (t : string) : Prop := t <> "" /\ spaceless t = true.

(** [sep.join(pieces)] for the line feed *)
Fixpoint join_lines (pieces : list string) : string :=
  match pieces with
  | [] => ""
  | [t] => t
  | t :: rest => t +:+ String newline (join_lines rest)
  end.

(** * Properties *)

(** ** The scenarios of the specification, run *)

(** Fresh cache, target [c2]: cloned, checked out at [c2], marker at [c2]. *)
Example scenario_fresh_clone :
  let self := Example.source false "c2" in
  let run := GitCache.fetch git_with_sync_helpers self true Example.fresh in
  run.1 = Return tt /\
  left_in_cache self run.2 = Some (Some "c2", Some "c2", Example.t2).
Proof. vm_compute. split; reflexivity. Qed.

(** Cache at [c1] with the marker at [c1], target [c2]: reset to [c2]. *)
Example scenario_reset :
  let self := Example.source false "c2" in
  let run := GitCache.fetch git_with_sync_helpers self true
               (Example.world (Example.repo "c1" (Some "c1"))) in
  run.1 = Return tt /\
  left_in_cache self run.2 = Some (Some "c2", Some "c2", Example.t2) /\
  GitResetHard "/cache/pkg" "c2" ∈ trace run.2.
Proof.
  vm_compute. split; [reflexivity|]. split; [reflexivity|].
  apply list_elem_of_In. simpl. tauto.
Qed.

(** Cache at [c1] with the local commit [L] on top, target [c2]: [L] is
    replayed on [c2], its file is still there, the marker is at [c2]. *)
Example scenario_rebase :
  let self := Example.source false "c2" in
  let run := GitCache.fetch git_with_sync_helpers self true
               (Example.world (Example.repo "L" (Some "c1"))) in
  run.1 = Return tt /\
  left_in_cache self run.2
  = Some (Some (replayed "L" "c2"), Some "c2",
          {["a.c" := "v1"; "b.c" := "w2"; "l.c" := "local"]}).
Proof. vm_compute. split; reflexivity. Qed.

(** Same cache, target [c0] behind the marker, resets not allowed: the
    call fails and the cache is as it was. *)
Example scenario_deny :
  let self := Example.source false "c0" in
  let r := Example.repo "L" (Some "c1") in
  let run := GitCache.fetch git_with_sync_helpers self true (Example.world r) in
  run.1 = Raise (FatalError "Could not update repository /cache/pkg to revision c0") /\
  cache self run.2 = Some r.
Proof. vm_compute. split; reflexivity. Qed.

(** Same again with resets allowed: HEAD is [c0] and [L] is gone from
    its history. *)
Example scenario_discard :
  let self := Example.source true "c0" in
  let run := GitCache.fetch git_with_sync_helpers self true
               (Example.world (Example.repo "L" (Some "c1"))) in
  run.1 = Return tt /\
  left_in_cache self run.2 = Some (Some "c0", Some "c0", Example.t0) /\
  (cache self run.2 ≫= fun r => Some (is_ancestor r "L" "HEAD")) = Some false.
Proof. vm_compute. repeat split; reflexivity. Qed.

(** ** Running monadic code *)

Section Run.

Context {S A B : Type}.

Lemma bind_return (c : M S A) (k : A -> M S B) s a s' :
  c s = (Return a, s') -> bind c k s = k a s'.
Proof. intros H. unfold bind. now rewrite H. Qed.

(** A [bind] that returns went through both halves. *)
Lemma bind_returns (c : M S A) (k : A -> M S B) s b s' :
  bind c k s = (Return b, s') ->
  exists a s1, c s = (Return a, s1) /\ k a s1 = (Return b, s').
Proof.
  unfold bind. destruct (c s) as [[a|e] s1]; intros H.
  - eauto.
  - discriminate.
Qed.

End Run.

(** One more statement run: [step0] for one that computes, [step lem]
    for one whose result [lem] gives from the hypotheses at hand. *)
Ltac step0 := cbv beta iota; erewrite bind_return by reflexivity.
Ltac step lem := cbv beta iota; erewrite bind_return by (eapply lem; eassumption).

(** ** The command bridge, step by step *)

Lemma run_git_at {A} c d (op : Repo -> option A * Repo) w r :
  repos w !! d = Some r ->
  run_git c d op w
  = (Return (op r).1, set_repos (<[d := (op r).2]> (repos w)) (add_trace c w)).
Proof. intros H. unfold run_git. simpl. now rewrite H. Qed.

(** A command that leaves the repository as it is only adds to the trace. *)
Lemma run_git_query {A} c d (op : Repo -> option A * Repo) w r :
  repos w !! d = Some r -> (op r).2 = r ->
  run_git c d op w = (Return (op r).1, add_trace c w).
Proof.
  intros H E. rewrite (run_git_at _ _ _ _ _ H), E, insert_id by done.
  reflexivity.
Qed.

Lemma checked_some {A} c (m : M World (option A)) w a w' :
  m w = (Return (Some a), w') -> checked c m w = (Return a, w').
Proof. intros H. unfold checked. now rewrite (bind_return _ _ _ _ _ H). Qed.

Lemma checked_none {A} c (m : M World (option A)) w w' :
  m w = (Return None, w') -> checked c m w = (Raise (FatalError (cmdline c)), w').
Proof. intros H. unfold checked. now rewrite (bind_return _ _ _ _ _ H). Qed.

Lemma get_hash_at d rev w r h c :
  repos w !! d = Some r -> resolve_commit r rev = Some (h, c) ->
  git.get_hash d rev w = (Return h, add_trace (GitShowHash d rev) w).
Proof.
  intros H E. unfold git.get_hash. apply checked_some.
  rewrite (run_git_query _ _ _ _ r H); unfold op_show_hash; now rewrite E.
Qed.

Lemma checkout_at d rev w r t tc :
  repos w !! d = Some r -> resolve_commit r rev = Some (t, tc) ->
  git.checkout d rev w
  = (Return tt,
     set_repos (<[d := set_checkout (Some t) (tree tc) (rebase_orig r) r]> (repos w))
               (add_trace (GitResetHard d rev) w)).
Proof.
  intros H E. unfold git.checkout. apply checked_some.
  rewrite (run_git_at _ _ _ _ r H). unfold op_reset_hard. now rewrite E.
Qed.

Lemma read_ref_at d ref w r :
  repos w !! d = Some r ->
  sync_helpers.read_ref d ref w
  = (Return (refs r !! ("refs/" +:+ ref)), add_trace (GitReadRef d ref) w).
Proof. intros H. unfold sync_helpers.read_ref. now rewrite (run_git_query _ _ _ _ r H). Qed.

Lemma revision_is_ancestor_at d a b w r :
  repos w !! d = Some r ->
  sync_helpers.revision_is_ancestor d a b w
  = (Return (is_ancestor r a b), add_trace (GitIsAncestor d a b) w).
Proof.
  intros H. unfold sync_helpers.revision_is_ancestor.
  erewrite bind_return by (now apply (run_git_query _ _ _ _ r H)). reflexivity.
Qed.

Lemma op_rev_list_keeps range r : (op_rev_list range r).2 = r.
Proof.
  unfold op_rev_list. destruct (parse_range range) as [a b].
  destruct (resolve_commit r a) as [[? ?]|]; [|done].
  now destruct (resolve_commit r b) as [[? ?]|].
Qed.

Lemma rev_list_at d m w r l :
  repos w !! d = Some r -> local_commits r m = Some l ->
  sync_helpers.rev_list d (m +:+ "..") w
  = (Return l, add_trace (GitRevList d (m +:+ "..")) w).
Proof.
  intros H E. unfold sync_helpers.rev_list. apply checked_some.
  rewrite (run_git_query _ _ _ _ r H) by apply op_rev_list_keeps.
  now rewrite <- E.
Qed.

Lemma write_ref_at d ref rev w r h c :
  repos w !! d = Some r -> resolve_commit r rev = Some (h, c) ->
  sync_helpers.write_ref d ref rev w
  = (Return tt,
     set_repos (<[d := set_refs (<["refs/" +:+ ref := h]> (refs r)) r]> (repos w))
               (add_trace (GitWriteRef d ref rev) w)).
Proof.
  intros H E. unfold sync_helpers.write_ref. apply checked_some.
  rewrite (run_git_at _ _ _ _ r H). unfold op_write_ref. now rewrite E.
Qed.

(** With the helpers in place every name [source.py] asks of [git] is bound. *)
Lemma git_attr_bound {A} attr (c : M World A) :
  bool_decide (attr ∈ git_with_sync_helpers) = true ->
  GitCache.git_attr git_with_sync_helpers attr c = c.
Proof. intros H. unfold GitCache.git_attr. now rewrite H. Qed.

Lemma git_attr_shipped {A} attr (c : M World A) :
  bool_decide (attr ∈ git.names) = true ->
  GitCache.git_attr git.names attr c = c.
Proof. intros H. unfold GitCache.git_attr. now rewrite H. Qed.

Ltac bound := rewrite ?git_attr_bound by (vm_compute; reflexivity).

(** ** What git answers *)

Lemma rev_parse_HEAD r : rev_parse r "HEAD" = HEAD r.
Proof. reflexivity. Qed.

(** The hash of a commit names that commit. *)
Lemma resolve_commit_hash r rev h c :
  resolve_commit r rev = Some (h, c) -> HEAD r = Some h ->
  resolve_commit r h = Some (h, c).
Proof.
  unfold resolve_commit. intros H Hh.
  destruct (rev_parse r rev) as [h'|]; [|done].
  destruct (objects r !! h') as [c'|] eqn:E; [|done].
  injection H as -> ->.
  unfold rev_parse. case_bool_decide as Hd.
  - rewrite Hh. now rewrite E.
  - rewrite E. now rewrite E.
Qed.

Lemma is_ancestor_resolves r a b :
  is_ancestor r a b = true ->
  (exists ha ca, resolve_commit r a = Some (ha, ca)) /\
  (exists hb cb, resolve_commit r b = Some (hb, cb)).
Proof.
  unfold is_ancestor.
  destruct (resolve_commit r a) as [[ha ca]|]; [|done].
  destruct (resolve_commit r b) as [[hb cb]|]; [|done].
  intros _. split; eauto.
Qed.

Lemma resolve_HEAD r h c :
  resolve_commit r "HEAD" = Some (h, c) -> HEAD r = Some h /\ objects r !! h = Some c.
Proof.
  unfold resolve_commit. rewrite rev_parse_HEAD.
  destruct (HEAD r) as [h'|]; [|done].
  destruct (objects r !! h') as [c'|] eqn:E; [|done].
  now intros [= -> ->].
Qed.

(** ** Ranges *)

Lemma index_open_range m :
  dotless m = true -> String.index 0 ".." (m +:+ "..") = Some (String.length m).
Proof.
  induction m as [|a m IH]; [done|].
  intros H. apply andb_prop in H as [Ha Hm].
  change (String a m +:+ "..") with (String a (m +:+ "..")).
  cbn [String.index String.prefix String.length].
  match goal with
  | |- context [Ascii.ascii_dec ?d a] => destruct (Ascii.ascii_dec d a) as [<-|_]
  end.
  - vm_compute in Ha. discriminate.
  - now rewrite (IH Hm).
Qed.

Lemma substring_prefix m s : String.substring 0 (String.length m) (m +:+ s) = m.
Proof. induction m as [|a m IH]; simpl; [now destruct s | now rewrite IH]. Qed.

Lemma substring_nothing n s : String.substring n 0 s = "".
Proof. revert n. induction s as [|a s IH]; intros [|n]; simpl; auto. Qed.

Lemma length_append m s : String.length (m +:+ s) = String.length m + String.length s.
Proof. induction m as [|a m IH]; simpl; [done | now rewrite IH]. Qed.

(** The range [m..] reads as: from [m] to HEAD. *)
Lemma parse_open_range m :
  dotless m = true -> m <> "" -> parse_range (m +:+ "..") = (m, "HEAD").
Proof.
  intros Hd Hm. unfold parse_range. rewrite (index_open_range m Hd), substring_prefix.
  rewrite length_append. simpl String.length.
  replace (String.length m + 2 - (String.length m + 2)) with 0 by lia.
  rewrite substring_nothing.
  rewrite bool_decide_eq_false_2 by done. now rewrite bool_decide_eq_true_2.
Qed.

(** What [rev_list] answers for [m..] is the commits of HEAD that the
    history of [m] does not have. *)
Lemma local_commits_meaning r m hm cm h c :
  dotless m = true -> m <> "" ->
  resolve_commit r m = Some (hm, cm) -> resolve_commit r "HEAD" = Some (h, c) ->
  local_commits r m = Some (commits_between r hm h).
Proof.
  intros Hd Hm Hrm Hrh. unfold local_commits, op_rev_list.
  now rewrite (parse_open_range m Hd Hm), Hrm, Hrh.
Qed.

(** ** The git synchroniser *)

Lemma get_checkout_recipe_rev_known self w r m :
  cache self w = Some r -> marker r = Some m -> is_ancestor r m "HEAD" = true ->
  GitCache._get_checkout_recipe_rev git_with_sync_helpers self w
  = (Return (Some m),
     add_trace (GitIsAncestor (repo_dir self) m "HEAD")
       (add_trace (GitReadRef (repo_dir self) checkout_rev) w)).
Proof.
  intros Hr Hm Ha. unfold GitCache._get_checkout_recipe_rev. bound.
  step (read_ref_at (repo_dir self)).
  unfold marker in Hm. rewrite Hm.
  step (revision_is_ancestor_at (repo_dir self)).
  now rewrite Ha.
Qed.

(** C1: in an existing repository whose marker is known (present and an
    ancestor of HEAD) and with no commit reachable from HEAD but not
    from the marker, [_checkout] returns the target and leaves HEAD at
    the commit the target names, whatever HEAD was.  Unless HEAD was
    that commit's hash already, this is done by [git reset --hard],
    the last call made. *)
Theorem C1_no_local_work_hard_reset (self : Source) (w : World) (r : Repo)
    (m t : string) (tc : Commit) :
  cache self w = Some r ->
  marker r = Some m ->
  is_ancestor r m "HEAD" = true ->
  local_commits r m = Some [] ->
  resolve_commit r (target_revision self) = Some (t, tc) ->
  exists w' r',
    GitCache._checkout git_with_sync_helpers self false w
    = (Return (target_revision self), w') /\
    cache self w' = Some r' /\
    HEAD r' = Some t /\
    (HEAD r <> Some (target_revision self) ->
       r' = set_checkout (Some t) (tree tc) (rebase_orig r) r /\
       last (trace w') = Some (GitResetHard (repo_dir self) (target_revision self))).
Proof.
  intros Hr Hm Ha Hl Ht.
  destruct (is_ancestor_resolves _ _ _ Ha) as [_ (h & c & Hh)].
  destruct (resolve_HEAD _ _ _ Hh) as [HH Hc].
  unfold GitCache._checkout. fold (target_revision self). bound.
  step0.
  step (get_hash_at (repo_dir self)).
  case_bool_decide as Heq.
  - (* already there *)
    eexists _, r. split; [reflexivity|]. split; [exact Hr|]. split.
    + rewrite Heq in Ht. rewrite (resolve_commit_hash _ _ _ _ Hh HH) in Ht.
      injection Ht as <- _. exact HH.
    + intros Hne. congruence.
  - step (get_checkout_recipe_rev_known self).
    step0.
    step (rev_list_at (repo_dir self) m).
    step (revision_is_ancestor_at (repo_dir self)).
    unfold GitCache._checkout_update. bound.
    rewrite bool_decide_eq_false_2 by (simpl; lia). cbn [negb].
    step0.
    step (checkout_at (repo_dir self)).
    eexists _, _. split; [reflexivity|]. split.
    + unfold cache. simpl. apply lookup_insert_eq.
    + split; [reflexivity|]. intros _. split; [reflexivity|].
      simpl. now rewrite last_snoc.
Qed.

(** C1 at work: marker and HEAD at [c1], pinned at the branch
    [origin/sdk-1.0], which names [c2]. *)
Lemma C1_witness :
  exists w' r',
    GitCache._checkout git_with_sync_helpers (Example.source false "origin/sdk-1.0") false
                       (Example.world (Example.repo "c1" (Some "c1")))
    = (Return "origin/sdk-1.0", w') /\
    cache (Example.source false "origin/sdk-1.0") w' = Some r' /\
    HEAD r' = Some "c2" /\
    (HEAD (Example.repo "c1" (Some "c1")) <> Some "origin/sdk-1.0" ->
       r' = set_checkout (Some "c2") Example.t2 None (Example.repo "c1" (Some "c1")) /\
       last (trace w') = Some (GitResetHard "/cache/pkg" "origin/sdk-1.0")).
Proof.
  apply (C1_no_local_work_hard_reset (Example.source false "origin/sdk-1.0")
           (Example.world (Example.repo "c1" (Some "c1")))
           (Example.repo "c1" (Some "c1")) "c1" "c2" (mkCommit ["c1"] Example.t2));
    vm_compute; reflexivity.
Defined.

Lemma rebase_at d rev w r :
  repos w !! d = Some r -> (op_rebase rev r).1 = Some tt ->
  sync_helpers.rebase d rev w
  = (Return tt, set_repos (<[d := (op_rebase rev r).2]> (repos w))
                          (add_trace (GitRebase d rev) w)).
Proof.
  intros H E. unfold sync_helpers.rebase. apply checked_some.
  rewrite (run_git_at _ _ _ _ r H). now rewrite E.
Qed.

Lemma rebase_stops_at d rev w r :
  repos w !! d = Some r -> (op_rebase rev r).1 = None ->
  sync_helpers.rebase d rev w
  = (Raise (FatalError (cmdline (GitRebase d rev))),
     set_repos (<[d := (op_rebase rev r).2]> (repos w))
               (add_trace (GitRebase d rev) w)).
Proof.
  intros H E. unfold sync_helpers.rebase. apply checked_none.
  rewrite (run_git_at _ _ _ _ r H). now rewrite E.
Qed.

Lemma rebase_abort_at d w r :
  repos w !! d = Some r -> (op_rebase_abort r).1 = Some tt ->
  sync_helpers.rebase_abort d w
  = (Return tt, set_repos (<[d := (op_rebase_abort r).2]> (repos w))
                          (add_trace (GitRebaseAbort d) w)).
Proof.
  intros H E. unfold sync_helpers.rebase_abort. apply checked_some.
  rewrite (run_git_at _ _ _ _ r H). now rewrite E.
Qed.

(** A rebase that stops on a conflict can be aborted, and the abort
    puts HEAD and the working tree back. *)
Lemma abort_after_conflict r rev t tc h :
  rebase_orig r = None -> resolve_commit r rev = Some (t, tc) -> HEAD r = Some h ->
  (op_rebase rev r).1 = None ->
  let r1 := (op_rebase rev r).2 in
  (op_rebase_abort r1).1 = Some tt /\
  HEAD (op_rebase_abort r1).2 = HEAD r /\
  worktree (op_rebase_abort r1).2 = worktree r /\
  rebase_orig (op_rebase_abort r1).2 = None /\
  refs (op_rebase_abort r1).2 = refs r.
Proof.
  intros Ho Ht Hh. unfold op_rebase. rewrite Ho, Ht, Hh.
  destruct (replay _ _ _ _) as [[[objs tip] tip_tree] [dirty|]]; simpl; [|done].
  intros _. repeat split; done.
Qed.

(** C2: when local work exists and the target descends from the marker,
    [_checkout] attempts a rebase.  If the rebase stops (it raises),
    [rebase_abort] is run and the rebase's error is raised again; HEAD,
    the working tree and the marker are then what they were, and no
    rebase is left under way. *)
Theorem C2_failed_rebase_is_aborted (self : Source) (w : World) (r : Repo)
    (m : string) (l : list string) :
  cache self w = Some r ->
  marker r = Some m ->
  is_ancestor r m "HEAD" = true ->
  local_commits r m = Some l -> l <> [] ->
  is_ancestor r m (target_revision self) = true ->
  HEAD r <> Some (target_revision self) ->
  rebase_orig r = None ->
  let run := GitCache._checkout git_with_sync_helpers self false w in
  GitRebase (repo_dir self) (target_revision self) ∈ trace run.2 /\
  (rebase_stops r (target_revision self) ->
   exists r',
     run.1 = Raise (FatalError (cmdline (GitRebase (repo_dir self) (target_revision self)))) /\
     cache self run.2 = Some r' /\
     HEAD r' = HEAD r /\ worktree r' = worktree r /\ rebase_orig r' = None /\
     marker r' = marker r /\
     exists before,
       trace run.2 = trace w ++ before
                       ++ [GitRebase (repo_dir self) (target_revision self);
                           GitRebaseAbort (repo_dir self)]).
Proof.
  intros Hr Hm Ha Hl Hne Hf Hnot Ho run.
  destruct (is_ancestor_resolves _ _ _ Ha) as [_ (h & c & Hh)].
  destruct (resolve_HEAD _ _ _ Hh) as [HH Hc].
  destruct (is_ancestor_resolves _ _ _ Hf) as [_ (t & tc & Ht)].
  assert (Hrun : exists w1,
    run = bind (try_except_FatalError
                  (sync_helpers.rebase (repo_dir self) (target_revision self))
                  (fun e => sync_helpers.rebase_abort (repo_dir self) ;;; raise e))
               (fun _ => ret (target_revision self)) w1
    /\ cache self w1 = Some r
    /\ exists before, trace w1 = trace w ++ before).
  { subst run. unfold GitCache._checkout. fold (target_revision self). bound.
    step0. step (get_hash_at (repo_dir self)).
    rewrite bool_decide_eq_false_2 by congruence.
    step (get_checkout_recipe_rev_known self).
    step0.
    step (rev_list_at (repo_dir self) m).
    step (revision_is_ancestor_at (repo_dir self)).
    unfold GitCache._checkout_update. bound.
    rewrite bool_decide_eq_true_2 by (destruct l; [done | simpl; lia]).
    cbn [negb]. rewrite Hf.
    eexists. split; [reflexivity|]. split; [exact Hr|].
    simpl. eexists. rewrite <- !app_assoc. reflexivity. }
  destruct Hrun as (w1 & -> & Hr1 & before & Hb).
  unfold try_except_FatalError, bind.
  destruct (op_rebase (target_revision self) r).1 as [[]|] eqn:E.
  - rewrite (rebase_at _ _ _ _ Hr1 E). simpl. split.
    + rewrite Hb. set_solver.
    + unfold rebase_stops. congruence.
  - rewrite (rebase_stops_at _ _ _ _ Hr1 E).
    destruct (abort_after_conflict r _ t tc h Ho Ht HH E) as (Ea & E1 & E2 & E3 & E4).
    erewrite rebase_abort_at; [| simpl; apply lookup_insert_eq | exact Ea].
    simpl. split.
    + rewrite Hb. set_solver.
    + intros _. eexists. split; [reflexivity|]. split.
      { unfold cache. simpl. apply lookup_insert_eq. }
      split; [exact E1|]. split; [exact E2|]. split; [exact E3|].
      split; [unfold marker; now rewrite E4|].
      exists before. rewrite Hb. now rewrite <- !app_assoc.
Qed.

(** C2 at work: the local commit [X] rewrites the file [c2] added, so
    its replay on [c2] stops. *)
Lemma C2_witness :
  let self := Example.source false "c2" in
  let r := Example.repo "X" (Some "c1") in
  let run := GitCache._checkout git_with_sync_helpers self false (Example.world r) in
  GitRebase "/cache/pkg" "c2" ∈ trace run.2 /\
  exists r',
    run.1 = Raise (FatalError "rebase c2") /\
    cache self run.2 = Some r' /\
    HEAD r' = Some "X" /\ worktree r' = Example.tX /\ rebase_orig r' = None /\
    marker r' = Some "c1" /\
    exists before,
      trace run.2 = before ++ [GitRebase "/cache/pkg" "c2"; GitRebaseAbort "/cache/pkg"].
Proof.
  intros self r run.
  destruct (C2_failed_rebase_is_aborted self (Example.world r) r "c1" ["X"])
    as [Hin Hstop]; try (vm_compute; reflexivity); try discriminate.
  split; [exact Hin|]. apply Hstop. vm_compute. reflexivity.
Defined.

(** ** Invariants of the machine state along a run *)

Create HintDb preserves.

Section Preserves.

Variable I : World -> Prop.

Lemma preserves_ret {A} (a : A) : preserves I (ret a).
Proof. now intros w H. Qed.

Lemma preserves_raise {A} e : preserves I (@raise World A e).
Proof. now intros w H. Qed.

Lemma preserves_bind {A B} (c : M World A) (k : A -> M World B) :
  preserves I c -> (forall a, preserves I (k a)) -> preserves I (bind c k).
Proof.
  intros Hc Hk w H. unfold bind. specialize (Hc w H).
  destruct (c w) as [[a|e] w1]; simpl in *; [now apply Hk | exact Hc].
Qed.

Lemma preserves_try_FatalError {A} (body : M World A) handler :
  preserves I body -> (forall e, preserves I (handler e)) ->
  preserves I (try_except_FatalError body handler).
Proof.
  intros Hb Hh w H. unfold try_except_FatalError. specialize (Hb w H).
  destruct (body w) as [[a|[msg|attr|p]] w1]; simpl in *; try exact Hb.
  now apply Hh.
Qed.

Lemma preserves_try {A} (body handler : M World A) :
  preserves I body -> preserves I handler -> preserves I (try_except body handler).
Proof.
  intros Hb Hh w H. unfold try_except. specialize (Hb w H).
  destruct (body w) as [[a|e] w1]; simpl in *; [exact Hb | now apply Hh].
Qed.

Lemma preserves_git_attr {A} ns attr (c : M World A) :
  preserves I c -> preserves I (GitCache.git_attr ns attr c).
Proof.
  intros Hc. unfold GitCache.git_attr. destruct (bool_decide _); [exact Hc|].
  apply preserves_raise.
Qed.

Lemma preserves_for_each {A} (xs : list A) body :
  (forall x, preserves I (body x)) -> preserves I (for_each xs body).
Proof.
  intros Hb. induction xs as [|x xs IH]; simpl.
  - apply preserves_ret.
  - apply preserves_bind; auto.
Qed.

Lemma preserves_if {A} (b : bool) (c1 c2 : M World A) :
  preserves I c1 -> preserves I c2 -> preserves I (if b then c1 else c2).
Proof. now destruct b. Qed.

End Preserves.

#[export] Hint Resolve preserves_ret preserves_raise preserves_bind
  preserves_try_FatalError preserves_try preserves_git_attr preserves_for_each
  preserves_if : preserves.

(** An invariant that only reads the log is kept by whatever the
    bridge does. *)
Section LogInvariants.

Variable I : World -> Prop.
Hypothesis HI : log_only I.

Lemma log_run_git {A} c d (op : Repo -> option A * Repo) : preserves I (run_git c d op).
Proof.
  intros w H. unfold run_git. simpl.
  destruct (repos w !! d); simpl; now apply (HI w).
Qed.

Lemma log_checked {A} c (m : M World (option A)) : preserves I m -> preserves I (checked c m).
Proof.
  intros Hm. unfold checked. apply preserves_bind; [exact Hm|].
  intros [a|]; [apply preserves_ret | apply preserves_raise].
Qed.

Lemma log_get_hash d rev : preserves I (git.get_hash d rev).
Proof. apply log_checked, log_run_git. Qed.

Lemma log_checkout d rev : preserves I (git.checkout d rev).
Proof. apply log_checked, log_run_git. Qed.

Lemma log_read_ref d ref : preserves I (sync_helpers.read_ref d ref).
Proof. apply log_run_git. Qed.

Lemma log_rev_list d range : preserves I (sync_helpers.rev_list d range).
Proof. apply log_checked, log_run_git. Qed.

Lemma log_revision_is_ancestor d a b :
  preserves I (sync_helpers.revision_is_ancestor d a b).
Proof.
  unfold sync_helpers.revision_is_ancestor.
  apply preserves_bind; [apply log_run_git | intros; apply preserves_ret].
Qed.

Lemma log_rebase d rev : preserves I (sync_helpers.rebase d rev).
Proof. apply log_checked, log_run_git. Qed.

Lemma log_rebase_abort d : preserves I (sync_helpers.rebase_abort d).
Proof. apply log_checked, log_run_git. Qed.

End LogInvariants.

#[export] Hint Resolve log_get_hash log_checkout log_read_ref log_rev_list
  log_revision_is_ancestor log_rebase log_rebase_abort : preserves.

Lemma never_logged_log_only m : log_only (never_logged m).
Proof. intros w w' E. unfold never_logged. now rewrite E. Qed.

Lemma never_logged_add m x w : x <> m -> never_logged m w -> never_logged m (add_log x w).
Proof.
  intros Hne H. unfold never_logged in *. simpl.
  rewrite elem_of_app, list_elem_of_singleton. intros [Hin | ->]; [exact (H Hin) | done].
Qed.

Lemma never_other_action m t : preserves (never_logged (warning m)) (m_action t).
Proof. intros w H. now apply never_logged_add. Qed.

Lemma never_other_message m t : preserves (never_logged (warning m)) (m_message t).
Proof. intros w H. now apply never_logged_add. Qed.

Lemma never_other_warning m t : t <> m -> preserves (never_logged (warning m)) (m_warning t).
Proof. intros Hne w H. apply never_logged_add; [congruence | exact H]. Qed.

#[export] Hint Resolve never_logged_log_only never_other_action never_other_message
  : preserves.

(** Apply the rules along the shape of the code. *)
Ltac walk :=
  repeat match goal with
    | |- preserves _ (bind _ _) => apply preserves_bind
    | |- preserves _ (if _ then _ else _) => apply preserves_if
    | |- preserves _ (GitCache.git_attr _ _ _) => apply preserves_git_attr
    | |- preserves _ (try_except_FatalError _ _) => apply preserves_try_FatalError
    | |- preserves _ (try_except _ _) => apply preserves_try
    | |- preserves _ (for_each _ _) => apply preserves_for_each
    | |- preserves _ (ret _) => apply preserves_ret
    | |- preserves _ (raise _) => apply preserves_raise
    | |- forall _, preserves _ _ => intro
    | |- preserves _ (match ?x with _ => _ end) => destruct x
    end.

(** The warning about history that could not be figured out is never
    printed: the branch that prints it is only reached with
    [have_local_commits] set. *)
Lemma unknown_history_never_reported ns self new_repo :
  preserves (never_logged (warning GitCache.msg_unknown_history))
            (GitCache._checkout ns self new_repo).
Proof.
  assert (Hupd : forall commit head hl mf,
    preserves (never_logged (warning GitCache.msg_unknown_history))
              (GitCache._checkout_update ns self commit head hl mf)).
  { intros commit head hl mf. unfold GitCache._checkout_update.
    destruct hl; cbn [negb]; walk; auto with preserves;
      apply never_other_warning; discriminate. }
  unfold GitCache._checkout, GitCache._get_checkout_recipe_rev.
  walk; auto with preserves; apply never_other_warning; discriminate.
Qed.

(** C3: a repository without marker, checked out at the local commit
    [L], asked for [c0] with [fetch_resets_repository] off.  Whether
    local commits exist is not known, yet the failure is reported with
    the warning about local commits, the very one printed when the
    marker is known and [L] is known to be local; the warning about
    history that could not be figured out is not printed. *)
Theorem C3_unknown_ancestry_reported_as_local_commits :
  let self := Example.source false "c0" in
  let unknown := GitCache._checkout git_with_sync_helpers self false
                   (Example.world (Example.repo "L" None)) in
  let known := GitCache._checkout git_with_sync_helpers self false
                 (Example.world (Example.repo "L" (Some "c1"))) in
  known_marker (Example.repo "L" None) = None /\
  unknown.1 = Raise (FatalError "Could not update repository /cache/pkg to revision c0") /\
  log unknown.2 = [action "Updating git repository /cache/pkg to revision c0";
                   warning "refs/cerbero-checkout does not exist";
                   warning GitCache.msg_local_commits] /\
  cache self unknown.2 = Some (Example.repo "L" None) /\
  known.1 = unknown.1 /\
  last (log known.2) = last (log unknown.2).
Proof. vm_compute. repeat split; reflexivity. Qed.

(** Reading the marker: the value is [known_marker], the repository is
    not touched, and a warning is printed exactly when the value is
    [None]. *)
Lemma get_checkout_recipe_rev_at self w r :
  cache self w = Some r ->
  exists l,
    GitCache._get_checkout_recipe_rev git_with_sync_helpers self w
    = (Return (known_marker r),
       mkWorld (fs w) (repos w) (network w) (broken w) (log w ++ l)
               (trace w ++ match marker r with
                           | Some m => [GitReadRef (repo_dir self) checkout_rev;
                                        GitIsAncestor (repo_dir self) m "HEAD"]
                           | None => [GitReadRef (repo_dir self) checkout_rev]
                           end)) /\
    (forall m, known_marker r = Some m -> l = []) /\
    (known_marker r = None -> exists text, l = [warning text]).
Proof.
  intros Hr. unfold GitCache._get_checkout_recipe_rev, known_marker. bound.
  step (read_ref_at (repo_dir self)). fold checkout_rev.
  change (refs r !! ("refs/" +:+ checkout_rev)) with (marker r).
  destruct (marker r) as [m|] eqn:Hm.
  - step (revision_is_ancestor_at (repo_dir self)).
    destruct (is_ancestor r m "HEAD") eqn:Ha; cbn [negb].
    + exists []. split; [|split; [done|discriminate]].
      unfold ret, add_trace. simpl. now rewrite app_nil_r, <- app_assoc.
    + eexists [_]. split; [|split; [discriminate|eauto]].
      step0. unfold ret, add_trace, add_log. simpl. now rewrite <- app_assoc.
  - eexists [_]. split; [|split; [discriminate|eauto]].
    step0. reflexivity.
Qed.

(** C4: [_get_checkout_recipe_rev] hands back the stored marker only
    when it is an ancestor of HEAD (no warning then); when the ref is
    absent or is not an ancestor of HEAD it hands back [None] and prints
    one warning.  The repository is not touched by the read.  With the
    marker unknown, [_checkout] goes on with [have_local_commits = True]
    and [moving_forward] set to whether HEAD is an ancestor of the
    target. *)
Theorem C4_marker_trusted_only_below_HEAD (self : Source) (w : World) (r : Repo) :
  cache self w = Some r ->
  let read := GitCache._get_checkout_recipe_rev git_with_sync_helpers self w in
  read.1 = Return (known_marker r) /\
  repos read.2 = repos w /\
  (forall m, known_marker r = Some m ->
     marker r = Some m /\ is_ancestor r m "HEAD" = true /\ log read.2 = log w) /\
  (known_marker r = None -> exists text, log read.2 = log w ++ [warning text]) /\
  (forall h c,
     resolve_commit r "HEAD" = Some (h, c) -> target_revision self <> h ->
     known_marker r = None ->
     exists w1,
       GitCache._checkout git_with_sync_helpers self false w
       = GitCache._checkout_update git_with_sync_helpers self (target_revision self) h
           true (is_ancestor r "HEAD" (target_revision self)) w1 /\
       repos w1 = repos w).
Proof.
  intros Hr read.
  destruct (get_checkout_recipe_rev_at self w r Hr) as (l & Hread & Hk & Hu).
  subst read. rewrite Hread. simpl.
  split; [reflexivity|]. split; [reflexivity|]. split.
  { intros m Hm. rewrite (Hk m Hm), app_nil_r. unfold known_marker in Hm.
    destruct (marker r) as [m'|]; [|done].
    destruct (is_ancestor r m' "HEAD") eqn:Ha; [|done].
    now injection Hm as ->. }
  split.
  { intros Hn. destruct (Hu Hn) as [text ->]. eauto. }
  intros h c Hh Hne Hn.
  unfold GitCache._checkout. fold (target_revision self). bound.
  step0. step (get_hash_at (repo_dir self)).
  rewrite bool_decide_eq_false_2 by exact Hne. cbv beta iota.
  match goal with
  | |- context [bind (GitCache._get_checkout_recipe_rev _ _) _ ?w2] =>
      destruct (get_checkout_recipe_rev_at self w2 r Hr) as (l2 & Hread2 & _ & _);
      rewrite (bind_return _ _ _ _ _ Hread2)
  end.
  rewrite Hn.
  erewrite bind_return
    by (apply (revision_is_ancestor_at (repo_dir self) _ _ _ r); exact Hr).
  eexists. split; [reflexivity|]. reflexivity.
Qed.

(** C4 at work: the marker is at [c2], which is not in the history of
    HEAD ([L] on top of [c1]). *)
Lemma C4_witness :
  let self := Example.source false "c0" in
  let r := Example.repo "L" (Some "c2") in
  let read := GitCache._get_checkout_recipe_rev git_with_sync_helpers self (Example.world r) in
  read.1 = Return None /\
  (exists text, log read.2 = [warning text]) /\
  exists w1,
    GitCache._checkout git_with_sync_helpers self false (Example.world r)
    = GitCache._checkout_update git_with_sync_helpers self "c0" "L" true false w1 /\
    repos w1 = repos (Example.world r).
Proof.
  intros self r read.
  destruct (C4_marker_trusted_only_below_HEAD self (Example.world r) r)
    as (H1 & _ & _ & H4 & H5); [vm_compute; reflexivity|].
  split; [exact H1|]. split.
  - apply H4. vm_compute. reflexivity.
  - apply (H5 "L" (mkCommit ["c1"] Example.tL)); try (vm_compute; reflexivity).
    discriminate.
Defined.

(** ** What the statements return *)

Lemma yields_ret {A} (a : A) (P : A -> Prop) : P a -> yields (ret a) P.
Proof. intros H w a' w' [= <- _]. exact H. Qed.

Lemma yields_raise {A} e (P : A -> Prop) : yields (raise e) P.
Proof. intros w a w' [=]. Qed.

Lemma yields_bind {A B} (c : M World A) (k : A -> M World B) (P : B -> Prop) :
  (forall a, yields (k a) P) -> yields (bind c k) P.
Proof.
  intros Hk w b w' H. apply bind_returns in H as (a & w1 & _ & H). exact (Hk a w1 b w' H).
Qed.

Lemma yields_if {A} (b : bool) (c1 c2 : M World A) P :
  yields c1 P -> yields c2 P -> yields (if b then c1 else c2) P.
Proof. now destruct b. Qed.

Lemma yields_git_attr {A} ns attr (c : M World A) P :
  yields c P -> yields (GitCache.git_attr ns attr c) P.
Proof.
  intros Hc. unfold GitCache.git_attr. destruct (bool_decide _); [exact Hc|].
  apply yields_raise.
Qed.

Ltac walk_yields :=
  repeat match goal with
    | |- yields (bind _ _) _ => apply yields_bind
    | |- yields (if _ then _ else _) _ => apply yields_if
    | |- yields (GitCache.git_attr _ _ _) _ => apply yields_git_attr
    | |- yields (ret _) _ => apply yields_ret
    | |- yields (raise _) _ => apply yields_raise
    | |- forall _, yields _ _ => intro
    | |- yields (match ?x with _ => _ end) _ => destruct x
    end.

(** Whatever path [_checkout] takes, what it returns is its [commit]. *)
Lemma checkout_yields_target ns self new_repo :
  yields (GitCache._checkout ns self new_repo) (fun v => v = target_revision self).
Proof.
  unfold GitCache._checkout, GitCache._checkout_update. fold (target_revision self).
  walk_yields; reflexivity.
Qed.

Lemma write_ref_returns d ref rev w w' :
  sync_helpers.write_ref d ref rev w = (Return tt, w') ->
  exists r h c,
    repos w !! d = Some r /\ resolve_commit r rev = Some (h, c) /\
    w' = set_repos (<[d := set_refs (<["refs/" +:+ ref := h]> (refs r)) r]> (repos w))
                   (add_trace (GitWriteRef d ref rev) w).
Proof.
  unfold sync_helpers.write_ref, checked, bind, run_git. simpl.
  destruct (repos w !! d) as [r|] eqn:Hr; [|discriminate].
  unfold op_write_ref. destruct (resolve_commit r rev) as [[h c]|] eqn:E; simpl; [|discriminate].
  intros [= <-]. eauto 6.
Qed.

Lemma first_ref_insert rs cands k h :
  first_ref rs cands = Some h -> first_ref (<[k := h]> rs) cands = Some h.
Proof.
  induction cands as [|c cs IH]; simpl; [done|].
  destruct (decide (k = c)) as [->|Hne].
  - now rewrite lookup_insert_eq.
  - rewrite lookup_insert_ne by done. destruct (rs !! c); [done | exact IH].
Qed.

(** Once a ref is written to what a revision names, the revision still
    names it. *)
Lemma rev_parse_after_write r rev k h :
  rev_parse r rev = Some h ->
  rev_parse (set_refs (<[k := h]> (refs r)) r) rev = Some h.
Proof.
  unfold rev_parse, set_refs. cbn [objects refs HEAD].
  destruct (bool_decide (rev = "HEAD")); [done|].
  destruct (objects r !! rev); [done|]. apply first_ref_insert.
Qed.

Lemma resolve_commit_rev_parse r rev h c :
  resolve_commit r rev = Some (h, c) -> rev_parse r rev = Some h.
Proof.
  unfold resolve_commit. destruct (rev_parse r rev) as [h'|]; [|done].
  destruct (objects r !! h'); [|done]. now intros [= -> _].
Qed.

(** C5 (amended): in every fetch that succeeds, on an existing
    repository as on a fresh clone, [_checkout] has returned the target
    revision as the recipe pins it (the revision expression, not a hash
    computed from it; [fetch] itself returns nothing), and afterwards
    the CheckoutMarker is the commit that revision names. *)
Theorem C5_returns_pin_and_writes_marker (self : Source) (w w' : World) :
  GitCache.fetch git_with_sync_helpers self true w = (Return tt, w') ->
  exists new_repo w1 w2 r' h,
    GitCache._fetch_remotes git_with_sync_helpers self w = (Return new_repo, w1) /\
    GitCache._checkout git_with_sync_helpers self new_repo w1
    = (Return (target_revision self), w2) /\
    cache self w' = Some r' /\
    marker r' = Some h /\
    rev_parse r' (target_revision self) = Some h.
Proof.
  unfold GitCache.fetch. intros H.
  apply bind_returns in H as (new_repo & w1 & Hf & H).
  apply bind_returns in H as (v & w2 & Hc & H).
  pose proof (checkout_yields_target _ _ _ _ _ _ Hc) as ->.
  rewrite git_attr_bound in H by (vm_compute; reflexivity).
  apply bind_returns in H as ([] & w3 & Hw & H).
  apply write_ref_returns in Hw as (r & h & c & Hr & Hres & ->).
  injection H as <-.
  exists new_repo, w1, w2, (set_refs (<["refs/" +:+ checkout_rev := h]> (refs r)) r), h.
  split; [exact Hf|]. split; [exact Hc|]. split.
  { unfold cache. simpl. apply lookup_insert_eq. }
  split.
  { unfold marker. simpl. apply lookup_insert_eq. }
  apply rev_parse_after_write. eapply resolve_commit_rev_parse, Hres.
Qed.

(** C5 as stated fails: pinned at the branch [origin/sdk-1.0], which
    names commit [c2], [_checkout] returns ["origin/sdk-1.0"], not [c2]. *)
Lemma C5_counterexample :
  ~ returns_resolved_hash (Example.source false "origin/sdk-1.0")
                          (Example.world (Example.repo "c1" (Some "c1"))).
Proof.
  intros (r & h & c & Hr & Hres & Hret).
  vm_compute in Hr. injection Hr as <-.
  vm_compute in Hres. injection Hres as <- _.
  vm_compute in Hret. discriminate.
Qed.

(** C5 at work: a first fetch, with [origin] serving the history. *)
Lemma C5_witness :
  let self := Example.source false "origin/sdk-1.0" in
  let run := GitCache.fetch git_with_sync_helpers self true Example.fresh in
  run.1 = Return tt /\
  exists new_repo w1 w2 r' h,
    GitCache._fetch_remotes git_with_sync_helpers self Example.fresh = (Return new_repo, w1) /\
    GitCache._checkout git_with_sync_helpers self new_repo w1 = (Return "origin/sdk-1.0", w2) /\
    cache self run.2 = Some r' /\
    marker r' = Some h /\
    rev_parse r' "origin/sdk-1.0" = Some h.
Proof.
  intros self run. split; [vm_compute; reflexivity|].
  apply (C5_returns_pin_and_writes_marker self Example.fresh run.2).
  vm_compute. reflexivity.
Defined.

(** C6 (amended): on an existing repository whose HEAD hash is the
    target revision as pinned, [_checkout] returns the target after the
    single call that reads HEAD, leaving every repository as it was;
    [fetch] then writes the CheckoutMarker, and that write is the only
    change and the only further call: no reset, no rebase. *)
Theorem C6_noop_only_writes_marker (self : Source) (w w1 : World) (r : Repo) (c : Commit) :
  GitCache._fetch_remotes git_with_sync_helpers self w = (Return false, w1) ->
  cache self w1 = Some r ->
  HEAD r = Some (target_revision self) ->
  objects r !! target_revision self = Some c ->
  (exists w2,
     GitCache._checkout git_with_sync_helpers self false w1
     = (Return (target_revision self), w2) /\
     repos w2 = repos w1 /\
     trace w2 = trace w1 ++ [GitShowHash (repo_dir self) "HEAD"]) /\
  (exists w',
     GitCache.fetch git_with_sync_helpers self true w = (Return tt, w') /\
     repos w' = <[repo_dir self :=
                    set_refs (<["refs/" +:+ checkout_rev := target_revision self]> (refs r)) r]>
                  (repos w1) /\
     trace w' = trace w1 ++ [GitShowHash (repo_dir self) "HEAD";
                             GitWriteRef (repo_dir self) checkout_rev (target_revision self)]).
Proof.
  intros Hf Hr HH Hc.
  assert (Hh : resolve_commit r "HEAD" = Some (target_revision self, c)).
  { unfold resolve_commit. now rewrite rev_parse_HEAD, HH, Hc. }
  pose proof (resolve_commit_hash _ _ _ _ Hh HH) as Ht.
  assert (Hck : GitCache._checkout git_with_sync_helpers self false w1
                = (Return (target_revision self),
                   add_trace (GitShowHash (repo_dir self) "HEAD")
                     (add_log (action ("Updating git repository " +:+ repo_dir self
                                       +:+ " to revision " +:+ target_revision self)) w1))).
  { unfold GitCache._checkout. fold (target_revision self). bound.
    step0. step (get_hash_at (repo_dir self)).
    now rewrite bool_decide_eq_true_2. }
  split.
  - eexists. split; [exact Hck|]. split; reflexivity.
  - unfold GitCache.fetch.
    rewrite (bind_return _ _ _ _ _ Hf), (bind_return _ _ _ _ _ Hck). bound.
    erewrite bind_return
      by (eapply (write_ref_at (repo_dir self)); [exact Hr | exact Ht]).
    eexists. split; [reflexivity|]. split; [reflexivity|].
    simpl. now rewrite <- app_assoc.
Qed.

(** C6 as stated fails: HEAD is the target [c1] and the marker is at
    [c0]; after the fetch the cached repository is not what it was (the
    marker has been moved to [c1]). *)
Lemma C6_counterexample :
  HEAD (Example.repo "c1" (Some "c0")) = Some (target_revision (Example.source false "c1")) /\
  ~ leaves_cache_untouched (Example.source false "c1")
                           (Example.world (Example.repo "c1" (Some "c0"))).
Proof.
  split; [reflexivity|].
  unfold leaves_cache_untouched. intros H.
  apply (f_equal (fun o => o ≫= marker)) in H. vm_compute in H. discriminate.
Qed.

(** C6 at work: HEAD and pin are [c1], the marker is at [c0]. *)
Lemma C6_witness :
  let self := Example.source false "c1" in
  let r := Example.repo "c1" (Some "c0") in
  let w := Example.world r in
  let w1 := (GitCache._fetch_remotes git_with_sync_helpers self w).2 in
  (exists w2,
     GitCache._checkout git_with_sync_helpers self false w1 = (Return "c1", w2) /\
     repos w2 = repos w1 /\
     trace w2 = trace w1 ++ [GitShowHash "/cache/pkg" "HEAD"]) /\
  (exists w',
     GitCache.fetch git_with_sync_helpers self true w = (Return tt, w') /\
     repos w' = <["/cache/pkg" := set_refs (<["refs/cerbero-checkout" := "c1"]> (refs r)) r]>
                  (repos w1) /\
     trace w' = trace w1 ++ [GitShowHash "/cache/pkg" "HEAD";
                             GitWriteRef "/cache/pkg" "cerbero-checkout" "c1"]).
Proof.
  intros self r w w1.
  apply (C6_noop_only_writes_marker self w w1 r (mkCommit ["c0"] Example.t1));
    vm_compute; reflexivity.
Defined.

(** ** The [git] module as shipped *)

(** With [git.py] as it is, a fetch that checks out never returns: if
    it gets as far as writing the marker, [git.write_ref] is not there. *)
Lemma shipped_fetch_never_returns self w :
  exists e w', GitCache.fetch git.names self true w = (Raise e, w').
Proof.
  unfold GitCache.fetch, bind.
  destruct (GitCache._fetch_remotes git.names self w) as [[new_repo|e] w1]; [|eauto].
  destruct (GitCache._checkout git.names self new_repo w1) as [[v|e] w2]; [|eauto].
  unfold GitCache.git_attr.
  replace (bool_decide ("write_ref" ∈ git.names)) with false by (vm_compute; reflexivity).
  unfold raise. eauto.
Qed.

(** C7: none of the six helpers [source.py] calls is bound in
    [git.py], and a fetch on an existing repository whose HEAD is not
    the target stops at the first of them with an attribute error,
    before any decision is taken. *)
Theorem C7_sync_helpers_missing :
  Forall (fun a => a ∉ git.names) sync_helpers.names /\
  HEAD (Example.repo "c1" (Some "c1")) <> Some (target_revision (Example.source false "c2")) /\
  (GitCache.fetch git.names (Example.source false "c2") true
                  (Example.world (Example.repo "c1" (Some "c1")))).1
  = Raise (AttributeError "read_ref").
Proof.
  split; [|split].
  - apply (bool_decide_unpack _). vm_compute. exact I.
  - discriminate.
  - vm_compute. reflexivity.
Qed.

(** ** The patch tiers of [LocalTarball.extract] *)

Lemma run_tool_returns c w w' :
  run_tool c w = (Return tt, w') -> w' = add_trace c w.
Proof. unfold run_tool. destruct (bool_decide _); now intros [= <-]. Qed.

Lemma find_tarball_returns self w t w' :
  LocalTarball._find_tarball self w = (Return t, w') -> w' = w.
Proof.
  unfold LocalTarball._find_tarball, bind, os.listdir.
  destruct (fs w !! repo_dir self) as [[]|]; try discriminate.
  destruct (filter _ _) as [|x [|y l]]; try discriminate.
  now intros [= _ <-].
Qed.

Lemma apply_patch_loop_returns b l w w' :
  for_each l (fun patch => shell.apply_patch b patch None) w = (Return tt, w') ->
  trace w' = trace w ++ map (fun p => ShellApplyPatch b p None) l /\ fs w' = fs w.
Proof.
  revert w. induction l as [|p l IH]; intros w; simpl.
  - intros [= <-]. now rewrite app_nil_r.
  - intros H. apply bind_returns in H as ([] & w1 & H1 & H2).
    apply run_tool_returns in H1 as ->.
    destruct (IH _ H2) as [E F]. rewrite E, F. simpl. now rewrite <- app_assoc.
Qed.

(** One tier: the [*.patch] entries of the directory, in listing order,
    each handed to [shell.apply_patch]; nothing when it is not a
    directory. *)
Lemma apply_patches_returns self d w w' :
  LocalTarball._apply_patches self d w = (Return tt, w') ->
  trace w' = trace w ++ map (fun p => ShellApplyPatch (build_dir self) p None)
                            (patch_files (fs w) d) /\
  fs w' = fs w.
Proof.
  unfold LocalTarball._apply_patches, patch_files, bind, os.isdir, os.listdir.
  case_bool_decide as Hd; cbn [negb].
  - rewrite Hd. apply apply_patch_loop_returns.
  - intros [= <-]. split; [|done].
    destruct (fs w !! d) as [[]|]; try now rewrite app_nil_r.
    done.
Qed.

Lemma apply_patches_missing self d w :
  fs w !! d <> Some Dir -> LocalTarball._apply_patches self d w = (Return tt, w).
Proof.
  intros Hd. unfold LocalTarball._apply_patches, bind, os.isdir.
  now rewrite bool_decide_eq_false_2.
Qed.

(** C8: when [LocalTarball.extract] returns, what it handed to the
    shell is the unpacking of the archive, then one [shell.apply_patch]
    for every [*.patch] entry at the root of the cache, then one for
    every [*.patch] entry of the platform directory, and nothing else.
    When the platform directory is not there by the time its tier is
    reached, that tier does nothing at all: [extract] ends exactly as
    the steps before it did. *)
Theorem C8_two_patch_tiers (self : Source) (w : World) :
  (forall w',
     LocalTarball.extract self w = (Return tt, w') ->
     exists tarball,
       trace w' = trace w
                  ++ ShellUnpack tarball (unpack_dir self)
                  :: map (fun p => ShellApplyPatch (build_dir self) p None)
                         (patch_files (fs w') (repo_dir self)
                          ++ patch_files (fs w') (platform_patches_dir self))) /\
  (fs (LocalTarball._extract_common self w).2 !! platform_patches_dir self <> Some Dir ->
   LocalTarball.extract self w = LocalTarball._extract_common self w).
Proof.
  split.
  - intros w' H. unfold LocalTarball.extract in H.
    apply bind_returns in H as ([] & w4 & Hc & Hp).
    unfold LocalTarball._extract_common in Hc.
    apply bind_returns in Hc as (there & w0 & [= <- <-] & Hc).
    apply bind_returns in Hc as ([] & w1 & Hm & Hc).
    apply bind_returns in Hc as (tarball & w2 & Hf & Hc).
    apply find_tarball_returns in Hf as ->.
    apply bind_returns in Hc as ([] & w3 & Hu & Hc).
    apply run_tool_returns in Hu as ->.
    apply apply_patches_returns in Hc as [E1 F1].
    apply apply_patches_returns in Hp as [E2 F2].
    assert (Ht : trace w1 = trace w).
    { destruct (bool_decide _); cbn [negb] in Hm.
      - now injection Hm as <-.
      - unfold os.mkdir in Hm. destruct (fs w !! _); [discriminate|]. now injection Hm as <-. }
    exists tarball. rewrite E2, E1, F2, F1. simpl. rewrite Ht, map_app, <- !app_assoc.
    reflexivity.
  - intros Hd. unfold LocalTarball.extract, bind.
    destruct (LocalTarball._extract_common self w) as [[[]|e] w1] eqn:Hc; simpl in *.
    + now rewrite apply_patches_missing.
    + done.
Qed.

(** C8 at work: a cache with two common patches and one for [linux];
    then the same cache without its [linux] directory. *)
Lemma C8_witness :
  let self := Example.tarball_source in
  let w := Example.tarball_world Example.tarball_fs in
  let w_bare := Example.tarball_world (delete "/cache/pkg/linux" Example.tarball_fs) in
  (exists tarball,
     trace (LocalTarball.extract self w).2
     = ShellUnpack tarball "/src"
       :: map (fun p => ShellApplyPatch "/src/pkg-1.0" p None)
              (["/cache/pkg/0001-a.patch"; "/cache/pkg/0002-b.patch"]
               ++ ["/cache/pkg/linux/0003-l.patch"])) /\
  LocalTarball.extract self w_bare = LocalTarball._extract_common self w_bare.
Proof.
  intros self w w_bare. split.
  - apply (proj1 (C8_two_patch_tiers self w) (LocalTarball.extract self w).2).
    vm_compute. reflexivity.
  - apply (proj2 (C8_two_patch_tiers self w_bare)). vm_compute. discriminate.
Defined.

(** ** [built_version] *)

(** C9 (amended): for a git-backed source [built_version] is the
    recipe version, then [+git~], then the full hash git prints for the
    pinned commit ([--pretty=%H]); it depends on nothing else and leaves
    the repository as it is. *)
Theorem C9_built_version_full_hash (self : Source) (w : World) (r : Repo)
    (h : string) (c : Commit) :
  cache self w = Some r ->
  resolve_commit r (commit self) = Some (h, c) ->
  GitCache.built_version git.names self w
  = (Return (version self +:+ "+git~" +:+ h),
     add_trace (GitShowHash (repo_dir self) (commit self)) w).
Proof.
  intros Hr Hh. unfold GitCache.built_version.
  rewrite git_attr_shipped by (vm_compute; reflexivity).
  step (get_hash_at (repo_dir self)). reflexivity.
Qed.

(** C9 as stated fails: for a commit with a forty-digit hash the
    string does not end in the abbreviated hash. *)
Lemma C9_counterexample :
  let self := Example.source false Example.long_hash in
  let w := Example.world Example.hashed_repo in
  rev_parse Example.hashed_repo (commit self) = Some Example.long_hash /\
  (GitCache.built_version git.names self w).1
  <> Return (built_version_spec (version self) Example.long_hash).
Proof. split; [reflexivity|]. vm_compute. discriminate. Qed.

(** C9 at work *)
Lemma C9_witness :
  let self := Example.source false Example.long_hash in
  let w := Example.world Example.hashed_repo in
  GitCache.built_version git.names self w
  = (Return "1.0+git~0123456789abcdef0123456789abcdef01234567",
     add_trace (GitShowHash "/cache/pkg" Example.long_hash) w).
Proof.
  intros self w.
  apply (C9_built_version_full_hash self w Example.hashed_repo Example.long_hash
           (mkCommit [] Example.t0)); vm_compute; reflexivity.
Defined.

(** ** The patch loop of [Git.extract] *)

Section AddsOnly.

Variable P : Call -> Prop.

Lemma adds_only_ret {A} (a : A) : adds_only P (ret a).
Proof. intros w. exists []. simpl. now rewrite app_nil_r. Qed.

Lemma adds_only_raise {A} e : adds_only P (@raise World A e).
Proof. intros w. exists []. simpl. now rewrite app_nil_r. Qed.

Lemma adds_only_bind {A B} (c : M World A) (k : A -> M World B) :
  adds_only P c -> (forall a, adds_only P (k a)) -> adds_only P (bind c k).
Proof.
  intros Hc Hk w. unfold bind. destruct (Hc w) as (l1 & E1 & F1).
  destruct (c w) as [[a|e] w1]; simpl in *; [|eauto].
  destruct (Hk a w1) as (l2 & E2 & F2). exists (l1 ++ l2).
  rewrite E2, E1, app_assoc. split; [done | now apply Forall_app].
Qed.

Lemma adds_only_try {A} (body handler : M World A) :
  adds_only P body -> adds_only P handler -> adds_only P (try_except body handler).
Proof.
  intros Hb Hh w. unfold try_except. destruct (Hb w) as (l1 & E1 & F1).
  destruct (body w) as [[a|e] w1]; simpl in *; [eauto|].
  destruct (Hh w1) as (l2 & E2 & F2). exists (l1 ++ l2).
  rewrite E2, E1, app_assoc. split; [done | now apply Forall_app].
Qed.

Lemma adds_only_if {A} (b : bool) (c1 c2 : M World A) :
  adds_only P c1 -> adds_only P c2 -> adds_only P (if b then c1 else c2).
Proof. now destruct b. Qed.

Lemma adds_only_git_attr {A} ns attr (c : M World A) :
  adds_only P c -> adds_only P (GitCache.git_attr ns attr c).
Proof.
  intros Hc. unfold GitCache.git_attr. destruct (bool_decide _); [exact Hc|].
  apply adds_only_raise.
Qed.

(** A statement that leaves the trace alone. *)
Lemma adds_only_silent {A} (c : M World A) :
  (forall w, trace (c w).2 = trace w) -> adds_only P c.
Proof. intros H w. exists []. now rewrite H, app_nil_r. Qed.

Lemma adds_only_run_git {A} c d (op : Repo -> option A * Repo) :
  P c -> adds_only P (run_git c d op).
Proof.
  intros Hc w. exists [c]. unfold run_git. simpl.
  destruct (repos w !! d); simpl; split; auto.
Qed.

Lemma adds_only_checked {A} c (m : M World (option A)) :
  adds_only P m -> adds_only P (checked c m).
Proof.
  intros Hm. unfold checked. apply adds_only_bind; [exact Hm|].
  intros [a|]; [apply adds_only_ret | apply adds_only_raise].
Qed.

End AddsOnly.

Ltac walk_adds :=
  repeat match goal with
    | |- adds_only _ (bind _ _) => apply adds_only_bind
    | |- adds_only _ (if _ then _ else _) => apply adds_only_if
    | |- adds_only _ (GitCache.git_attr _ _ _) => apply adds_only_git_attr
    | |- adds_only _ (try_except _ _) => apply adds_only_try
    | |- adds_only _ (checked _ _) => apply adds_only_checked
    | |- adds_only _ (run_git _ _ _) => apply adds_only_run_git; [reflexivity]
    | |- adds_only _ (ret _) => apply adds_only_ret
    | |- adds_only _ (raise _) => apply adds_only_raise
    | |- forall _, adds_only _ _ => intro
    end.

Lemma extract_checkout_quiet ns WINDOWS self :
  adds_only not_a_patch (Git._extract_checkout ns WINDOWS self).
Proof.
  unfold Git._extract_checkout, git.get_hash, git.local_checkout. walk_adds.
  - apply adds_only_silent. reflexivity.
  - intros w. exists [ShellCall "chmod -R +w .git/" (build_dir self)]. split; [reflexivity|].
    repeat constructor.
  - apply adds_only_silent. intros w. unfold shutil.rmtree. now destruct (fs w !! _) as [[]|].
  - apply adds_only_silent. reflexivity.
  - apply adds_only_silent. intros w. unfold os.mkdir. now destruct (fs w !! _).
  - apply adds_only_silent. reflexivity.
  - intros w. exists [GitClone (build_dir self) (repo_dir self)]. unfold git.clone. simpl.
    split; [|repeat constructor].
    destruct (fs w !! _) as [[]|]; try done.
    destruct (repos w !! build_dir self); try done.
    now destruct (repos w !! repo_dir self).
  - intros w. exists [GitFetchRefs (build_dir self)]. unfold git.fetch_refs. simpl.
    split; [|repeat constructor].
    destruct (repos w !! _) as [r|]; try done.
    destruct (remote_urls r !! _) as [u|]; try done.
    now destruct (repos w !! u).
Qed.

Lemma run_tool_trace c w : trace (run_tool c w).2 = trace w ++ [c].
Proof. unfold run_tool. now destruct (bool_decide _). Qed.

(** One declared patch: one call, chosen by the strip count, on the
    path made absolute. *)
Lemma apply_one_trace self patch w :
  trace (Git.apply_one git.names self patch w).2 = trace w ++ [patch_call self patch].
Proof.
  unfold Git.apply_one, patch_call, relative_path.
  rewrite git_attr_shipped by (vm_compute; reflexivity).
  destruct (isabs patch); cbn [negb]; case_bool_decide;
    apply run_tool_trace.
Qed.

Lemma patch_loop_returns self l w w' :
  for_each l (Git.apply_one git.names self) w = (Return tt, w') ->
  trace w' = trace w ++ map (patch_call self) l.
Proof.
  revert w. induction l as [|p l IH]; intros w; simpl.
  - intros [= <-]. now rewrite app_nil_r.
  - intros H. apply bind_returns in H as ([] & w1 & H1 & H2).
    rewrite (IH _ H2).
    replace w1 with (Git.apply_one git.names self p w).2 by now rewrite H1.
    now rewrite apply_one_trace, <- app_assoc.
Qed.

(** C10: when [Git.extract] has run through, the calls it made end
    with one call per declared patch, in order: [git am] on the patch
    when the strip count is 1, [shell.apply_patch] with that strip count
    otherwise, and in both cases a path that is not absolute has first
    gone through [relative_path]; no patch is applied before.  Each
    turn of the loop makes that one call, whether it succeeds or not. *)
Theorem C10_patches_dispatch_on_strip (WINDOWS : string) (self : Source) (w w' : World) :
  Git.extract git.names WINDOWS self w = (Return true, w') ->
  (exists before,
     trace w' = trace w ++ before ++ map (patch_call self) (patches self) /\
     Forall not_a_patch before) /\
  (forall patch w0,
     trace (Git.apply_one git.names self patch w0).2 = trace w0 ++ [patch_call self patch]).
Proof.
  intros H. split; [|intros; apply apply_one_trace].
  unfold Git.extract in H. apply bind_returns in H as (go_on & w1 & H1 & H2).
  destruct (extract_checkout_quiet git.names WINDOWS self w) as (before & E & F).
  rewrite H1 in E. simpl in E.
  destruct go_on; [|discriminate].
  apply bind_returns in H2 as ([] & w2 & H2 & [= <-]).
  exists before. split; [|exact F].
  now rewrite (patch_loop_returns _ _ _ _ H2), E, <- app_assoc.
Qed.

(** C10 at work: the same two patches with strip 1, then with strip 2. *)
Lemma C10_witness :
  let run strip := Git.extract git.names "windows" (Example.patched_source strip)
                               Example.build_world in
  (exists before,
     trace (run 1%Z).2
     = before ++ [GitAm "/src/pkg-1.0" "/recipes/pkg/a.patch";
                  GitAm "/src/pkg-1.0" "/abs/b.patch"] /\
     Forall not_a_patch before) /\
  (exists before,
     trace (run 2%Z).2
     = before ++ [ShellApplyPatch "/recipes/pkg/a.patch" "/src/pkg-1.0" (Some 2%Z);
                  ShellApplyPatch "/abs/b.patch" "/src/pkg-1.0" (Some 2%Z)] /\
     Forall not_a_patch before).
Proof.
  intros run. split.
  - apply (proj1 (C10_patches_dispatch_on_strip "windows" (Example.patched_source 1)
                    Example.build_world (run 1%Z).2 ltac:(vm_compute; reflexivity))).
  - apply (proj1 (C10_patches_dispatch_on_strip "windows" (Example.patched_source 2)
                    Example.build_world (run 2%Z).2 ltac:(vm_compute; reflexivity))).
Defined.

(** * Further properties of the handlers *)

(** ** The update of an existing repository, by cases *)

(** A [bind] whose first half raises stops there. *)
Lemma bind_raise {S A B} (c : M S A) (k : A -> M S B) s e s' :
  c s = (Raise e, s') -> bind c k s = (Raise e, s').
Proof. intros H. unfold bind. now rewrite H. Qed.

Lemma get_hash_fails_at d rev w r :
  repos w !! d = Some r -> resolve_commit r rev = None ->
  git.get_hash d rev w
  = (Raise (FatalError (cmdline (GitShowHash d rev))), add_trace (GitShowHash d rev) w).
Proof.
  intros H E. unfold git.get_hash. apply checked_none.
  rewrite (run_git_query _ _ _ _ r H); unfold op_show_hash; now rewrite E.
Qed.

Lemma checkout_fails_at d rev w r :
  repos w !! d = Some r -> resolve_commit r rev = None ->
  git.checkout d rev w
  = (Raise (FatalError (cmdline (GitResetHard d rev))), add_trace (GitResetHard d rev) w).
Proof.
  intros H E. unfold git.checkout. apply checked_none.
  rewrite (run_git_query _ _ _ _ r H); unfold op_reset_hard; now rewrite E.
Qed.

Lemma rev_list_fails_at d m w r :
  repos w !! d = Some r -> local_commits r m = None ->
  sync_helpers.rev_list d (m +:+ "..") w
  = (Raise (FatalError (cmdline (GitRevList d (m +:+ "..")))),
     add_trace (GitRevList d (m +:+ "..")) w).
Proof.
  intros H E. unfold sync_helpers.rev_list. apply checked_none.
  rewrite (run_git_query _ _ _ _ r H) by apply op_rev_list_keeps.
  now rewrite <- E.
Qed.

(** On an existing repository that is not at the target, [_checkout]
    comes down to [_checkout_update] on the classification, run in a
    state that differs from the first one by messages and by the calls
    that read. *)
Lemma checkout_classifies self w r h c hl :
  cache self w = Some r ->
  resolve_commit r "HEAD" = Some (h, c) ->
  target_revision self <> h ->
  have_local_commits r = Some hl ->
  exists l,
    GitCache._checkout git_with_sync_helpers self false w
    = GitCache._checkout_update git_with_sync_helpers self (target_revision self) h hl
        (moving_forward self r)
        (mkWorld (fs w) (repos w) (network w) (broken w) (log w ++ l)
                 (trace w ++ reads self r)).
Proof.
  intros Hr Hh Hne Hl.
  unfold GitCache._checkout. fold (target_revision self). bound.
  step0. step (get_hash_at (repo_dir self)).
  rewrite bool_decide_eq_false_2 by exact Hne. cbv beta iota.
  match goal with
  | |- context [bind (GitCache._get_checkout_recipe_rev _ _) _ ?w2] =>
      destruct (get_checkout_recipe_rev_at self w2 r Hr) as (l2 & Hread2 & _ & _);
      rewrite (bind_return _ _ _ _ _ Hread2)
  end.
  unfold have_local_commits, moving_forward, reads in *.
  destruct (known_marker r) as [m|] eqn:Hk.
  - destruct (local_commits r m) as [revs|] eqn:Hrevs; [|discriminate].
    injection Hl as <-.
    step0.
    erewrite bind_return by (eapply (rev_list_at (repo_dir self) m); [exact Hr | exact Hrevs]).
    erewrite bind_return
      by (apply (revision_is_ancestor_at (repo_dir self) _ _ _ r); exact Hr).
    eexists. f_equal. unfold add_trace, add_log. simpl.
    f_equal; rewrite <- !app_assoc; reflexivity.
  - injection Hl as <-.
    erewrite bind_return
      by (apply (revision_is_ancestor_at (repo_dir self) _ _ _ r); exact Hr).
    eexists. f_equal. unfold add_trace, add_log. simpl.
    f_equal; rewrite <- !app_assoc; reflexivity.
Qed.

Lemma adds_only_try_FatalError P {A} (body : M World A) handler :
  adds_only P body -> (forall e, adds_only P (handler e)) ->
  adds_only P (try_except_FatalError body handler).
Proof.
  intros Hb Hh w. unfold try_except_FatalError. destruct (Hb w) as (l1 & E1 & F1).
  destruct (body w) as [[a|[msg|attr|p]] w1]; simpl in *; eauto.
  destruct (Hh (FatalError msg) w1) as (l2 & E2 & F2). exists (l1 ++ l2).
  rewrite E2, E1, app_assoc. split; [done | now apply Forall_app].
Qed.

Lemma adds_only_log P f : adds_only P (modify (add_log f)).
Proof. apply adds_only_silent. reflexivity. Qed.

(** Once local commits are taken to exist and resets are not allowed,
    what [_checkout_update] does never includes a reset. *)
Lemma update_without_reset self commit head mf :
  fetch_resets_repository (config self) = false ->
  adds_only not_a_reset
    (GitCache._checkout_update git_with_sync_helpers self commit head true mf).
Proof.
  intros Hf. unfold GitCache._checkout_update. rewrite Hf. cbn [negb].
  unfold sync_helpers.rebase, sync_helpers.rebase_abort, m_warning.
  destruct mf; walk_adds;
    try (apply adds_only_try_FatalError; walk_adds); apply adds_only_log.
Qed.

(** X1: with [fetch_resets_repository] off, an update of an existing
    repository that is not known to be free of local commits never runs
    [git reset --hard], however the run ends: every call it adds to the
    trace is something else (a read, a rebase or its abort). *)
Theorem local_work_is_never_reset_away (self : Source) (w : World) (r : Repo) :
  cache self w = Some r ->
  fetch_resets_repository (config self) = false ->
  have_local_commits r <> Some false ->
  exists calls,
    trace (GitCache._checkout git_with_sync_helpers self false w).2 = trace w ++ calls /\
    Forall not_a_reset calls.
Proof.
  intros Hr Hf Hl.
  destruct (resolve_commit r "HEAD") as [[h c]|] eqn:Hh.
  2:{ unfold GitCache._checkout. bound. step0.
      erewrite bind_raise by (eapply (get_hash_fails_at (repo_dir self)); eassumption).
      eexists [_]. split; [reflexivity|]. repeat constructor. }
  destruct (decide (target_revision self = h)) as [He|Hne].
  { unfold GitCache._checkout. fold (target_revision self). bound. step0.
    step (get_hash_at (repo_dir self)). rewrite bool_decide_eq_true_2 by exact He.
    eexists [_]. split; [reflexivity|]. repeat constructor. }
  assert (Hreads : Forall not_a_reset (reads self r)).
  { unfold reads. constructor; [reflexivity|]. apply Forall_app. split.
    - destruct (marker r); repeat constructor.
    - destruct (known_marker r); repeat constructor. }
  destruct (have_local_commits r) as [[]|] eqn:Hhl; [|congruence|].
  - destruct (checkout_classifies self w r h c true Hr Hh Hne Hhl) as (l & ->).
    destruct (update_without_reset self (target_revision self) h (moving_forward self r) Hf
                (mkWorld (fs w) (repos w) (network w) (broken w) (log w ++ l)
                         (trace w ++ reads self r))) as (l1 & E1 & F1).
    exists (reads self r ++ l1).
    split; [rewrite E1; cbn [trace]; now rewrite <- app_assoc | now apply Forall_app].
  - (* rev_list fails *)
    unfold have_local_commits in Hhl.
    destruct (known_marker r) as [m|] eqn:Hk; [|discriminate].
    destruct (local_commits r m) as [revs|] eqn:Hrevs; [discriminate|].
    unfold GitCache._checkout. fold (target_revision self). bound.
    step0. step (get_hash_at (repo_dir self)).
    rewrite bool_decide_eq_false_2 by exact Hne. cbv beta iota.
    match goal with
    | |- context [bind (GitCache._get_checkout_recipe_rev _ _) _ ?w2] =>
        destruct (get_checkout_recipe_rev_at self w2 r Hr) as (l2 & Hread2 & _ & _);
        rewrite (bind_return _ _ _ _ _ Hread2)
    end.
    rewrite Hk. step0.
    erewrite bind_raise
      by (eapply (rev_list_fails_at (repo_dir self) m); [exact Hr | exact Hrevs]).
    eexists. simpl. rewrite <- !app_assoc. split; [reflexivity|].
    constructor; [reflexivity|]. apply Forall_app. split; [|repeat constructor].
    destruct (marker r); repeat constructor.
Qed.

(** X1 at work: the local commit [L] on top of the marker [c1], asked
    for [c2]. *)
Lemma local_work_is_never_reset_away_witness :
  let self := Example.source false "c2" in
  let w := Example.world (Example.repo "L" (Some "c1")) in
  exists calls,
    trace (GitCache._checkout git_with_sync_helpers self false w).2 = trace w ++ calls /\
    Forall not_a_reset calls.
Proof.
  intros self w.
  apply (local_work_is_never_reset_away self w (Example.repo "L" (Some "c1")));
    [vm_compute; reflexivity | vm_compute; reflexivity | vm_compute; discriminate].
Defined.

(** X2: an existing repository with local commits, asked for a
    revision that does not descend from where it stands, with
    [fetch_resets_repository] off: [_checkout] raises "Could not update
    repository", having made only the calls that read; no repository
    and no file has changed, and the last thing printed is the warning
    about local commits. *)
Theorem refused_update_changes_nothing (self : Source) (w : World) (r : Repo)
    (h : string) (c : Commit) :
  cache self w = Some r ->
  resolve_commit r "HEAD" = Some (h, c) ->
  target_revision self <> h ->
  have_local_commits r = Some true ->
  moving_forward self r = false ->
  fetch_resets_repository (config self) = false ->
  let run := GitCache._checkout git_with_sync_helpers self false w in
  let failure := FatalError ("Could not update repository " +:+ repo_dir self
                             +:+ " to revision " +:+ target_revision self) in
  run.1 = Raise failure /\
  repos run.2 = repos w /\ fs run.2 = fs w /\
  trace run.2 = trace w ++ reads self r /\
  last (log run.2) = Some (warning GitCache.msg_local_commits).
Proof.
  intros Hr Hh Hne Hl Hm Hf run failure. subst run.
  destruct (checkout_classifies self w r h c true Hr Hh Hne Hl) as (l & E).
  rewrite E, Hm. unfold GitCache._checkout_update. rewrite Hf. cbn [negb].
  unfold m_warning. step0. unfold raise. cbn [fst snd].
  repeat split. simpl. apply last_snoc.
Qed.

(** X2 at work: [L] on top of the marker [c1], asked for [c0]. *)
Lemma refused_update_changes_nothing_witness :
  let self := Example.source false "c0" in
  let r := Example.repo "L" (Some "c1") in
  let w := Example.world r in
  let run := GitCache._checkout git_with_sync_helpers self false w in
  run.1 = Raise (FatalError "Could not update repository /cache/pkg to revision c0") /\
  repos run.2 = repos w /\ fs run.2 = fs w /\
  trace run.2 = trace w ++ reads self r /\
  last (log run.2) = Some (warning GitCache.msg_local_commits).
Proof.
  intros self r w.
  apply (refused_update_changes_nothing self w r "L" (mkCommit ["c1"] Example.tL));
    try (vm_compute; reflexivity).
  vm_compute. discriminate.
Defined.

(** X3: the same situation with [fetch_resets_repository] on: the
    repository is reset to the target, its local commits left behind;
    the reset is the one call made after the reads, and the warning
    printed last names the hash HEAD had. *)
Theorem allowed_reset_discards_local_work (self : Source) (w : World) (r : Repo)
    (h t : string) (c tc : Commit) :
  cache self w = Some r ->
  resolve_commit r "HEAD" = Some (h, c) ->
  target_revision self <> h ->
  have_local_commits r = Some true ->
  moving_forward self r = false ->
  fetch_resets_repository (config self) = true ->
  resolve_commit r (target_revision self) = Some (t, tc) ->
  exists w',
    GitCache._checkout git_with_sync_helpers self false w
    = (Return (target_revision self), w') /\
    repos w' = <[repo_dir self := set_checkout (Some t) (tree tc) (rebase_orig r) r]> (repos w) /\
    trace w' = trace w ++ reads self r
               ++ [GitResetHard (repo_dir self) (target_revision self)] /\
    last (log w')
    = Some (warning ("Rebase not possible. Potentially discarding commits since "
                     +:+ "fetch_resets_repository is set to True. (Was at " +:+ h +:+ ")")).
Proof.
  intros Hr Hh Hne Hl Hm Hf Ht.
  destruct (checkout_classifies self w r h c true Hr Hh Hne Hl) as (l & E).
  rewrite E, Hm. unfold GitCache._checkout_update. rewrite Hf. cbn [negb].
  unfold m_warning. step0. bound.
  erewrite bind_return by (eapply (checkout_at (repo_dir self)); [exact Hr | exact Ht]).
  eexists. split; [reflexivity|]. split; [reflexivity|].
  split; [simpl; now rewrite <- app_assoc|]. simpl. apply last_snoc.
Qed.

(** X3 at work: the same cache, resets allowed. *)
Lemma allowed_reset_discards_local_work_witness :
  let self := Example.source true "c0" in
  let r := Example.repo "L" (Some "c1") in
  let w := Example.world r in
  exists w',
    GitCache._checkout git_with_sync_helpers self false w = (Return "c0", w') /\
    repos w' = <["/cache/pkg" := set_checkout (Some "c0") Example.t0 None r]> (repos w) /\
    trace w' = trace w ++ reads self r ++ [GitResetHard "/cache/pkg" "c0"] /\
    last (log w')
    = Some (warning ("Rebase not possible. Potentially discarding commits since "
                     +:+ "fetch_resets_repository is set to True. (Was at L)")).
Proof.
  intros self r w.
  apply (allowed_reset_discards_local_work self w r "L" "c0"
           (mkCommit ["c1"] Example.tL) (mkCommit [] Example.t0));
    try (vm_compute; reflexivity).
  vm_compute. discriminate.
Defined.

(** X4: local commits and a target that descends from where the
    repository stands: the update is a rebase, whether
    [fetch_resets_repository] is on or off.  When the rebase goes
    through, [_checkout] returns the target, the repository is what the
    rebase left, and the rebase is the one call made after the reads;
    nothing is reset. *)
Theorem forward_update_rebases_whatever_the_flag (self : Source) (w : World) (r : Repo)
    (h : string) (c : Commit) :
  cache self w = Some r ->
  resolve_commit r "HEAD" = Some (h, c) ->
  target_revision self <> h ->
  have_local_commits r = Some true ->
  moving_forward self r = true ->
  (op_rebase (target_revision self) r).1 = Some tt ->
  exists w',
    GitCache._checkout git_with_sync_helpers self false w
    = (Return (target_revision self), w') /\
    repos w' = <[repo_dir self := (op_rebase (target_revision self) r).2]> (repos w) /\
    trace w' = trace w ++ reads self r
               ++ [GitRebase (repo_dir self) (target_revision self)] /\
    Forall not_a_reset (reads self r).
Proof.
  intros Hr Hh Hne Hl Hm Hreb.
  destruct (checkout_classifies self w r h c true Hr Hh Hne Hl) as (l & E).
  rewrite E, Hm. unfold GitCache._checkout_update. cbn [negb]. bound.
  unfold try_except_FatalError, bind.
  erewrite rebase_at by (first [exact Hr | exact Hreb]).
  eexists. split; [reflexivity|]. split; [reflexivity|].
  split; [simpl; now rewrite <- app_assoc|].
  unfold reads. constructor; [reflexivity|]. apply Forall_app. split.
  - destruct (marker r); repeat constructor.
  - destruct (known_marker r); repeat constructor.
Qed.

(** X4 at work: resets are allowed, and still [L] is replayed on [c2]. *)
Lemma forward_update_rebases_whatever_the_flag_witness :
  let self := Example.source true "c2" in
  let r := Example.repo "L" (Some "c1") in
  let w := Example.world r in
  exists w',
    GitCache._checkout git_with_sync_helpers self false w = (Return "c2", w') /\
    repos w' = <["/cache/pkg" := (op_rebase "c2" r).2]> (repos w) /\
    trace w' = trace w ++ reads self r ++ [GitRebase "/cache/pkg" "c2"] /\
    Forall not_a_reset (reads self r).
Proof.
  intros self r w.
  apply (forward_update_rebases_whatever_the_flag self w r "L" (mkCommit ["c1"] Example.tL));
    try (vm_compute; reflexivity).
  vm_compute. discriminate.
Defined.

(** X5: on a repository just created, [_checkout] (with [git.py] as
    shipped) makes one call, [git reset --hard] on the target, without
    looking at HEAD or at the marker, and prints one action.  It
    returns the target when the target names a commit of the
    repository, and raises, leaving every repository as it was, when it
    does not. *)
Theorem new_repository_is_reset_unseen (self : Source) (w : World) (r : Repo) :
  cache self w = Some r ->
  let run := GitCache._checkout git.names self true w in
  trace run.2 = trace w ++ [GitResetHard (repo_dir self) (target_revision self)] /\
  log run.2 = log w ++ [action ("Checking out git repository " +:+ repo_dir self
                                +:+ " at revision " +:+ target_revision self)] /\
  match resolve_commit r (target_revision self) with
  | Some (t, tc) =>
      run.1 = Return (target_revision self) /\
      repos run.2
      = <[repo_dir self := set_checkout (Some t) (tree tc) (rebase_orig r) r]> (repos w)
  | None =>
      run.1 = Raise (FatalError (cmdline (GitResetHard (repo_dir self) (target_revision self)))) /\
      repos run.2 = repos w
  end.
Proof.
  intros Hr run. subst run. unfold GitCache._checkout. fold (target_revision self).
  rewrite git_attr_shipped by (vm_compute; reflexivity).
  unfold m_action. step0.
  destruct (resolve_commit r (target_revision self)) as [[t tc]|] eqn:Ht.
  - erewrite bind_return by (eapply (checkout_at (repo_dir self)); [exact Hr | exact Ht]).
    repeat split.
  - erewrite bind_raise by (eapply (checkout_fails_at (repo_dir self)); [exact Hr | exact Ht]).
    repeat split.
Qed.

(** X5 at work: a pin that names no commit of the repository. *)
Lemma new_repository_is_reset_unseen_witness :
  let self := Example.source false "nowhere" in
  let w := Example.world (Example.repo "c1" None) in
  let run := GitCache._checkout git.names self true w in
  trace run.2 = trace w ++ [GitResetHard "/cache/pkg" "nowhere"] /\
  log run.2 = log w ++ [action "Checking out git repository /cache/pkg at revision nowhere"] /\
  run.1 = Raise (FatalError "git reset --hard nowhere") /\
  repos run.2 = repos w.
Proof.
  intros self w.
  apply (new_repository_is_reset_unseen self w (Example.repo "c1" None)).
  vm_compute. reflexivity.
Defined.

(** ** Remotes *)

Lemma add_remote_at d name url w r :
  repos w !! d = Some r ->
  exists calls,
    git.add_remote d name url w
    = (Return tt,
       mkWorld (fs w)
               (<[d := set_remote_urls (<[name := url]> (remote_urls r)) r]> (repos w))
               (network w) (broken w) (log w) (trace w ++ calls)) /\
    calls = match remote_urls r !! name with
            | Some _ => [GitRemoteAdd d name url; GitRemoteSetUrl d name url]
            | None => [GitRemoteAdd d name url]
            end.
Proof.
  intros Hr. unfold git.add_remote, try_except, checked, bind.
  rewrite (run_git_at _ _ _ _ r Hr). unfold op_remote_add.
  destruct (remote_urls r !! name) as [u|] eqn:Hu; simpl.
  - erewrite run_git_at by (simpl; apply lookup_insert_eq).
    unfold op_remote_set_url. rewrite Hu. simpl.
    eexists. split; [|reflexivity]. unfold set_repos, add_trace. simpl.
    now rewrite insert_insert_eq, <- app_assoc.
  - eexists. split; reflexivity.
Qed.

(** X6: [add_remote] on a directory that holds a repository never
    fails: afterwards the remote [name] points at [url], whether it was
    registered before or not, and nothing else of the repository has
    changed.  One call ([git remote add]) is made exactly when the name
    was free; otherwise [git remote set-url] follows the failed add. *)
Theorem add_remote_registers_or_retargets (git_dir name url : string) (w : World) (r : Repo) :
  repos w !! git_dir = Some r ->
  exists r',
    (git.add_remote git_dir name url w).1 = Return tt /\
    repos (git.add_remote git_dir name url w).2 = <[git_dir := r']> (repos w) /\
    remote_urls r' = <[name := url]> (remote_urls r) /\
    (objects r', refs r', HEAD r', worktree r', rebase_orig r')
    = (objects r, refs r, HEAD r, worktree r, rebase_orig r) /\
    (trace (git.add_remote git_dir name url w).2
     = trace w ++ [GitRemoteAdd git_dir name url]
     <-> remote_urls r !! name = None).
Proof.
  intros Hr. destruct (add_remote_at git_dir name url w r Hr) as (calls & -> & Hc).
  eexists. split; [reflexivity|]. split; [reflexivity|]. split; [reflexivity|].
  split; [reflexivity|]. simpl. subst calls.
  destruct (remote_urls r !! name); split; intros H; try done.
  apply app_inv_head in H. discriminate.
Qed.

(** X6 at work: [origin] is registered already, [mirror] is not. *)
Lemma add_remote_registers_or_retargets_witness :
  let w := Example.world (Example.repo "c1" None) in
  let r := Example.repo "c1" None in
  exists r',
    (git.add_remote "/cache/pkg" "mirror" "git://m/pkg.git" w).1 = Return tt /\
    repos (git.add_remote "/cache/pkg" "mirror" "git://m/pkg.git" w).2
    = <["/cache/pkg" := r']> (repos w) /\
    remote_urls r' = <["mirror" := "git://m/pkg.git"]> (remote_urls r) /\
    (objects r', refs r', HEAD r', worktree r', rebase_orig r')
    = (objects r, refs r, HEAD r, worktree r, rebase_orig r) /\
    (trace (git.add_remote "/cache/pkg" "mirror" "git://m/pkg.git" w).2
     = trace w ++ [GitRemoteAdd "/cache/pkg" "mirror" "git://m/pkg.git"]
     <-> remote_urls r !! "mirror" = None).
Proof.
  intros w r.
  apply (add_remote_registers_or_retargets "/cache/pkg" "mirror" "git://m/pkg.git" w r).
  vm_compute. reflexivity.
Defined.

(** Registering a list of remotes one after the other. *)
Lemma add_remotes_at ns d (l : list (string * string)) w r :
  bool_decide ("add_remote" ∈ ns) = true ->
  repos w !! d = Some r -> NoDup l.*1 ->
  exists w' r',
    for_each l (fun ru => GitCache.git_attr ns "add_remote" (git.add_remote d ru.1 ru.2)) w
    = (Return tt, w') /\
    repos w' !! d = Some r' /\
    fs w' = fs w /\ network w' = network w /\
    (objects r', refs r', HEAD r', worktree r', rebase_orig r')
    = (objects r, refs r, HEAD r, worktree r, rebase_orig r) /\
    forall name,
      remote_urls r' !! name
      = match (list_to_map l : gmap string string) !! name with
        | Some u => Some u
        | None => remote_urls r !! name
        end.
Proof.
  intros Hb. revert w r. induction l as [|[n u] l IH]; intros w r Hr Hnd.
  - exists w, r. repeat split; try done.
  - rewrite fmap_cons in Hnd. apply NoDup_cons in Hnd as [Hn Hnd]. cbn [for_each].
    unfold GitCache.git_attr at 1. rewrite Hb.
    destruct (add_remote_at d n u w r Hr) as (calls & E & _).
    rewrite (bind_return _ _ _ _ _ E).
    match goal with
    | |- context [for_each l _ ?w1] =>
        destruct (IH w1 (set_remote_urls (<[n := u]> (remote_urls r)) r))
          as (w' & r' & E' & Hr' & Hfs & Hnet & Hsame & Hurls);
          [simpl; apply lookup_insert_eq | exact Hnd |]
    end.
    exists w', r'. split; [exact E'|]. split; [exact Hr'|].
    split; [exact Hfs|]. split; [exact Hnet|]. split; [exact Hsame|].
    intros name. rewrite Hurls. cbn [list_to_map foldr set_remote_urls remote_urls].
    destruct (decide (name = n)) as [->|Hne].
    + rewrite (not_elem_of_list_to_map_1 _ _ Hn). now rewrite !lookup_insert_eq.
    + rewrite !(lookup_insert_ne _ n name) by done. reflexivity.
Qed.

Lemma track_keeps_marker name remote rs :
  track name remote rs !! ("refs/" +:+ checkout_rev) = rs !! ("refs/" +:+ checkout_rev).
Proof.
  unfold track. apply (map_fold_weak_ind (fun acc _ => acc !! _ = rs !! _)); [done|].
  intros k h m acc _ IH. destruct (remove_prefix _ k); [|exact IH].
  rewrite lookup_insert_ne; [exact IH|]. discriminate.
Qed.

(** [git fetch --all] brings objects and remote-tracking refs, nothing else. *)
Lemma fetch_all_keeps net r :
  let r' := (op_fetch_all net r).2 in
  HEAD r' = HEAD r /\ worktree r' = worktree r /\ rebase_orig r' = rebase_orig r /\
  remote_urls r' = remote_urls r /\ marker r' = marker r.
Proof.
  unfold op_fetch_all.
  apply (map_fold_weak_ind
           (fun acc _ => HEAD acc.2 = HEAD r /\ worktree acc.2 = worktree r /\
                         rebase_orig acc.2 = rebase_orig r /\
                         remote_urls acc.2 = remote_urls r /\ marker acc.2 = marker r));
    [done|].
  intros name url m acc _ (H1 & H2 & H3 & H4 & H5).
  destruct (net !! url) as [remote|]; simpl; [|done].
  repeat split; try done. unfold marker in *. simpl. now rewrite track_keeps_marker.
Qed.

Lemma init_or_not_at ns (self : Source) (w : World) (r : Repo) :
  bool_decide ("init" ∈ ns) = true ->
  cache self w = Some r ->
  exists w0,
    (if negb (bool_decide (is_Some (fs w !! repo_dir self)))
     then GitCache.git_attr ns "init" (git.init (repo_dir self)) ;;; ret true
     else ret false) w
    = (Return (negb (bool_decide (is_Some (fs w !! repo_dir self)))), w0) /\
    repos w0 = repos w /\ network w0 = network w.
Proof.
  intros Hb Hr. unfold bind, GitCache.git_attr. rewrite Hb.
  destruct (bool_decide (is_Some (fs w !! repo_dir self))) eqn:Hfs; cbn [negb].
  - eexists. split; [reflexivity|]. split; reflexivity.
  - unfold git.init. destruct (fs w !! repo_dir self) as [n|] eqn:E.
    + apply bool_decide_eq_false in Hfs. exfalso. apply Hfs. eauto.
    + simpl. unfold cache in Hr. rewrite Hr. eexists. split; [reflexivity|]. split; reflexivity.
Qed.

Lemma fetch_tolerant_at d w r :
  repos w !! d = Some r ->
  git.fetch d false w
  = (Return tt,
     set_repos (<[d := (op_fetch_all (network w) r).2]> (repos w))
               (add_trace (GitFetchAll d) w)).
Proof.
  intros Hr. unfold git.fetch. step0. cbv beta iota.
  erewrite bind_return by (apply run_git_at; exact Hr). reflexivity.
Qed.

(** The first half of [fetch] on a cache that holds a repository: the
    remotes are registered one by one, then everything is fetched. *)
Lemma fetch_remotes_at (self : Source) (w : World) (r : Repo) :
  cache self w = Some r ->
  exists w1 r1,
    GitCache._fetch_remotes git.names self w
    = (Return (negb (bool_decide (is_Some (fs w !! repo_dir self)))),
       set_repos (<[repo_dir self := (op_fetch_all (network w1) r1).2]> (repos w1))
                 (add_trace (GitFetchAll (repo_dir self)) w1)) /\
    (objects r1, refs r1, HEAD r1, worktree r1, rebase_orig r1)
    = (objects r, refs r, HEAD r, worktree r, rebase_orig r) /\
    forall name,
      remote_urls r1 !! name
      = match remotes self !! name with
        | Some url => Some url
        | None => remote_urls r !! name
        end.
Proof.
  intros Hr.
  destruct (init_or_not_at git.names self w r ltac:(vm_compute; reflexivity) Hr)
    as (w0 & Hinit & Hrepos0 & Hnet0).
  assert (Hr0 : repos w0 !! repo_dir self = Some r) by (now rewrite Hrepos0).
  destruct (add_remotes_at git.names (repo_dir self) (map_to_list (remotes self)) w0 r
              ltac:(vm_compute; reflexivity) Hr0 (NoDup_fst_map_to_list _))
    as (w1 & r1 & Hloop & Hr1 & _ & _ & Hsame & Hurls).
  exists w1, r1. split; [|split; [exact Hsame|]].
  - unfold GitCache._fetch_remotes. step0. cbv beta.
    rewrite (bind_return _ _ _ _ _ Hinit).
    rewrite (bind_return _ _ _ _ _ Hloop).
    rewrite git_attr_shipped by (vm_compute; reflexivity).
    rewrite (bind_return _ _ _ _ _ (fetch_tolerant_at _ _ _ Hr1)).
    reflexivity.
  - intros name. rewrite Hurls.
    destruct (remotes self !! name) as [u|] eqn:E.
    + apply elem_of_map_to_list in E.
      now rewrite (elem_of_list_to_map_1 _ _ _ (NoDup_fst_map_to_list _) E).
    + rewrite list_to_map_to_list, E. reflexivity.
Qed.

(** X7: on a cache that holds a repository, the first half of [fetch]
    (and so [fetch(checkout=False)]) returns with [git.py] as shipped,
    whatever the remotes answer: a failing [git fetch --all] is
    tolerated.  The value is whether the cache directory was missing.
    Afterwards every remote of the recipe is registered with its url,
    the other remotes are as before, and HEAD, the working tree, the
    marker and a rebase under way are untouched. *)
Theorem fetch_remotes_only_refreshes (self : Source) (w : World) (r : Repo) :
  cache self w = Some r ->
  exists w' r',
    GitCache._fetch_remotes git.names self w
    = (Return (negb (bool_decide (is_Some (fs w !! repo_dir self)))), w') /\
    GitCache.fetch git.names self false w = (Return tt, w') /\
    cache self w' = Some r' /\
    HEAD r' = HEAD r /\ worktree r' = worktree r /\ rebase_orig r' = rebase_orig r /\
    marker r' = marker r /\
    (forall name,
       remote_urls r' !! name
       = match remotes self !! name with
         | Some url => Some url
         | None => remote_urls r !! name
         end).
Proof.
  intros Hr. destruct (fetch_remotes_at self w r Hr) as (w1 & r1 & Hrun & Hsame & Hurls).
  injection Hsame as _ HR HH HW HO.
  pose proof (fetch_all_keeps (network w1) r1) as (F1 & F2 & F3 & F4 & F5).
  eexists _, _. split; [exact Hrun|].
  split; [unfold GitCache.fetch; now rewrite (bind_return _ _ _ _ _ Hrun)|].
  split; [unfold cache; simpl; apply lookup_insert_eq|].
  split; [congruence|]. split; [congruence|]. split; [congruence|].
  assert (Hm : marker r1 = marker r) by (unfold marker; congruence).
  split; [congruence|].
  intros name. now rewrite F4, Hurls.
Qed.

(** X7 at work: no remote answers, the refresh returns all the same. *)
Lemma fetch_remotes_only_refreshes_witness :
  let self := Example.source false "c2" in
  let r := Example.repo "L" (Some "c1") in
  let w := Example.world r in
  exists w' r',
    GitCache._fetch_remotes git.names self w
    = (Return (negb (bool_decide (is_Some (fs w !! repo_dir self)))), w') /\
    GitCache.fetch git.names self false w = (Return tt, w') /\
    cache self w' = Some r' /\
    HEAD r' = HEAD r /\ worktree r' = worktree r /\ rebase_orig r' = rebase_orig r /\
    marker r' = marker r /\
    (forall name,
       remote_urls r' !! name
       = match remotes self !! name with
         | Some url => Some url
         | None => remote_urls r !! name
         end).
Proof.
  intros self r w. apply (fetch_remotes_only_refreshes self w r). vm_compute. reflexivity.
Defined.

(** ** The local tarball

    Paths first. *)

Lemma remove_prefix_app p s x : remove_prefix p s = Some x -> s = p +:+ x.
Proof.
  revert s. induction p as [|a p IH]; intros s; simpl.
  - now intros [= ->].
  - destruct s as [|b s]; [done|]. case_bool_decide; [|done].
    intros Hx. subst. now rewrite (IH _ Hx).
Qed.

Lemma no_separator_not_absolute x :
  String.index 0 "/" x = None -> startswith x "/" = false.
Proof.
  destruct x as [|a x]; [done|]. unfold startswith. cbn [String.index String.prefix].
  destruct (Ascii.ascii_dec _ a) as [<-|Hne]; [|done].
  destruct x; discriminate.
Qed.

Lemma append_assoc (a b c : string) : (a +:+ b) +:+ c = a +:+ b +:+ c.
Proof.
  induction a as [|x a IH]; [done|].
  change (String x ((a +:+ b) +:+ c) = String x (a +:+ b +:+ c)). now rewrite IH.
Qed.

(** Joining a directory with one of the names [os.listdir] gives for it
    leads back to the entry. *)
Lemma path_join_child dir p x :
  dir <> "" -> os.child_of dir p = Some x -> path_join dir x = p.
Proof.
  intros Hd. unfold os.child_of, path_join.
  destruct (remove_prefix _ p) as [y|] eqn:E; [|done].
  case_bool_decide as Hy; [done|].
  destruct (String.index 0 "/" y) eqn:Hi; [done|]. intros [= <-].
  rewrite (no_separator_not_absolute _ Hi).
  rewrite bool_decide_eq_false_2 by done. cbn [orb].
  apply remove_prefix_app in E. destruct (endswith dir "/").
  - now rewrite E.
  - now rewrite E, append_assoc.
Qed.

Lemma elem_of_listing d (f : gmap string Node) x :
  x ∈ omap (os.child_of d) (map_to_list f).*1
  <-> exists q, is_Some (f !! q) /\ os.child_of d q = Some x.
Proof.
  rewrite list_elem_of_omap. split.
  - intros (q & Hq & Hc). exists q. split; [|done].
    apply list_elem_of_fmap in Hq as ([q' n] & -> & Hq). apply elem_of_map_to_list in Hq. eauto.
  - intros (q & [n Hq] & Hc). exists q. split; [|done].
    apply list_elem_of_fmap. exists (q, n). split; [done|]. now apply elem_of_map_to_list.
Qed.

(** X8: [_find_tarball] changes nothing, and when it returns, the
    path it leaves in [tarball_path] is an entry of the file system, it
    lies directly in the cache directory under a name that begins with
    the package name, and it is the only such entry: with none, or with
    a second one (be it a patch or a directory), the method does not
    return. *)
Theorem find_tarball_takes_the_single_match (self : Source) (w : World) :
  repo_dir self <> "" ->
  (LocalTarball._find_tarball self w).2 = w /\
  (forall p,
     (LocalTarball._find_tarball self w).1 = Return p ->
     is_Some (fs w !! p) /\
     (exists x, os.child_of (repo_dir self) p = Some x /\
                startswith x (package_name self) = true) /\
     forall q y,
       is_Some (fs w !! q) -> os.child_of (repo_dir self) q = Some y ->
       startswith y (package_name self) = true -> q = p).
Proof.
  intros Hd. unfold LocalTarball._find_tarball, bind, os.listdir.
  destruct (fs w !! repo_dir self) as [[]|] eqn:Hfs; try (split; [reflexivity|]; intros p [=]).
  set (entries := omap _ _) in *.
  destruct (filter _ entries) as [|t [|t' l]] eqn:Hf;
    (split; [reflexivity|]; intros p [=]). subst p.
  assert (Ht : t ∈ filter (fun x => startswith x (package_name self) = true) entries)
    by (rewrite Hf; apply list_elem_of_singleton; reflexivity).
  apply list_elem_of_filter in Ht as [Hs Ht].
  apply elem_of_listing in Ht as (q & Hq & Hc).
  rewrite (path_join_child _ _ _ Hd Hc). split; [exact Hq|]. split; [eauto|].
  intros q' y Hq' Hc' Hs'.
  assert (Hy : y ∈ filter (fun x => startswith x (package_name self) = true) entries).
  { apply list_elem_of_filter. split; [exact Hs'|]. apply elem_of_listing. eauto. }
  rewrite Hf in Hy. apply list_elem_of_singleton in Hy. subst y.
  apply (path_join_child _ _ _ Hd) in Hc, Hc'. congruence.
Qed.

(** X8 at work: the example cache, where [pkg-1.0.tar.gz] is the one
    entry that begins with [pkg]. *)
Lemma find_tarball_takes_the_single_match_witness :
  let self := Example.tarball_source in
  let w := Example.tarball_world Example.tarball_fs in
  (LocalTarball._find_tarball self w).2 = w /\
  (forall p,
     (LocalTarball._find_tarball self w).1 = Return p ->
     is_Some (fs w !! p) /\
     (exists x, os.child_of (repo_dir self) p = Some x /\
                startswith x (package_name self) = true) /\
     forall q y,
       is_Some (fs w !! q) -> os.child_of (repo_dir self) q = Some y ->
       startswith y (package_name self) = true -> q = p).
Proof.
  intros self w. apply (find_tarball_takes_the_single_match self w).
  vm_compute. discriminate.
Defined.

Lemma find_tarball_reads self w : (LocalTarball._find_tarball self w).2 = w.
Proof.
  unfold LocalTarball._find_tarball, bind, os.listdir.
  destruct (fs w !! repo_dir self) as [[]|]; try reflexivity.
  now destruct (filter _ _) as [|t [|t' l]].
Qed.

Lemma adds_only_for_each P {A} (l : list A) (body : A -> M World unit) :
  (forall x, adds_only P (body x)) -> adds_only P (for_each l body).
Proof.
  intros H. induction l as [|x l IH]; cbn [for_each].
  - apply adds_only_ret.
  - apply adds_only_bind; [apply H | intros _; exact IH].
Qed.

Lemma apply_patches_adds self d :
  adds_only (patch_of self) (LocalTarball._apply_patches self d).
Proof.
  unfold LocalTarball._apply_patches. apply adds_only_bind.
  { apply adds_only_silent. reflexivity. }
  intros isdir. apply adds_only_if; [apply adds_only_ret|].
  apply adds_only_bind.
  { apply adds_only_silent. intros w. unfold os.listdir. now destruct (fs w !! d) as [[]|]. }
  intros entries. apply adds_only_for_each. intros p w.
  exists [ShellApplyPatch (build_dir self) p None].
  unfold shell.apply_patch. rewrite run_tool_trace. split; [reflexivity|].
  constructor; [|constructor]. now exists p.
Qed.

Lemma bind_assoc {S A B C} (c : M S A) (k : A -> M S B) (k' : B -> M S C) s :
  bind (bind c k) k' s = bind c (fun a => bind (k a) k') s.
Proof. unfold bind. now destruct (c s) as [[a|e] s1]. Qed.

(** X9: however [LocalTarball.extract] ends, what it hands to the
    shell is either nothing, and then it has raised (no valid tarball,
    or the cache directory cannot be listed), or the unpacking of the
    tarball into [unpack_dir] followed by patch calls on the build
    directory only.  When the unpacking fails no patch is tried and the
    failure is raised. *)
Theorem extract_unpacks_before_it_patches (self : Source) (w : World) :
  exists calls,
    trace (LocalTarball.extract self w).2 = trace w ++ calls /\
    match calls with
    | [] => exists e, (LocalTarball.extract self w).1 = Raise e
    | c :: rest =>
        (exists tarball, c = ShellUnpack tarball (unpack_dir self)) /\
        Forall (patch_of self) rest /\
        (c ∈ broken w ->
         rest = [] /\ (LocalTarball.extract self w).1 = Raise (FatalError (cmdline c)))
    end.
Proof.
  assert (Hpre : exists w0,
            (if negb (bool_decide (is_Some (fs w !! build_dir self)))
             then os.mkdir (build_dir self) else ret tt) w = (Return tt, w0) /\
            trace w0 = trace w /\ broken w0 = broken w).
  { unfold os.mkdir. case_bool_decide as Hfs; cbn [negb].
    - eexists. split; [reflexivity|]. split; reflexivity.
    - destruct (fs w !! build_dir self) eqn:E; [exfalso; apply Hfs; eauto|].
      eexists. split; [reflexivity|]. split; reflexivity. }
  destruct Hpre as (w0 & Hpre & Ht0 & Hb0).
  unfold LocalTarball.extract, LocalTarball._extract_common.
  rewrite bind_assoc. step0. rewrite bind_assoc, (bind_return _ _ _ _ _ Hpre), bind_assoc.
  pose proof (find_tarball_reads self w0) as Hfind.
  destruct (LocalTarball._find_tarball self w0) as [[tp|e] w1] eqn:Ef; simpl in Hfind; subst w1.
  2:{ rewrite (bind_raise _ _ _ _ _ Ef). exists []. rewrite app_nil_r. split; [exact Ht0 | eauto]. }
  rewrite (bind_return _ _ _ _ _ Ef), bind_assoc.
  destruct (bool_decide (ShellUnpack tp (unpack_dir self) ∈ broken w0)) eqn:Hbr.
  - assert (Eu : shell.unpack tp (unpack_dir self) w0
                 = (Raise (FatalError (cmdline (ShellUnpack tp (unpack_dir self)))),
                    add_trace (ShellUnpack tp (unpack_dir self)) w0))
      by (unfold shell.unpack, run_tool; now rewrite Hbr).
    rewrite (bind_raise _ _ _ _ _ Eu).
    exists [ShellUnpack tp (unpack_dir self)]. split; [simpl; now rewrite Ht0|].
    split; [eauto|]. split; [constructor|]. intros _. split; reflexivity.
  - assert (Eu : shell.unpack tp (unpack_dir self) w0
                 = (Return tt, add_trace (ShellUnpack tp (unpack_dir self)) w0))
      by (unfold shell.unpack, run_tool; now rewrite Hbr).
    rewrite (bind_return _ _ _ _ _ Eu).
    destruct (adds_only_bind (patch_of self) _ _ (apply_patches_adds self (repo_dir self))
                (fun _ => apply_patches_adds self (platform_patches_dir self))
                (add_trace (ShellUnpack tp (unpack_dir self)) w0)) as (l & El & Fl).
    exists (ShellUnpack tp (unpack_dir self) :: l). split.
    + rewrite El. simpl. now rewrite Ht0, <- app_assoc.
    + split; [eauto|]. split; [exact Fl|]. intros Hin.
      apply bool_decide_eq_false in Hbr. rewrite Hb0 in Hbr. contradiction.
Qed.

(** X9 at work: the example cache. *)
Lemma extract_unpacks_before_it_patches_witness :
  let self := Example.tarball_source in
  let w := Example.tarball_world Example.tarball_fs in
  exists calls,
    trace (LocalTarball.extract self w).2 = trace w ++ calls /\
    match calls with
    | [] => exists e, (LocalTarball.extract self w).1 = Raise e
    | c :: rest =>
        (exists tarball, c = ShellUnpack tarball (unpack_dir self)) /\
        Forall (patch_of self) rest /\
        (c ∈ broken w ->
         rest = [] /\ (LocalTarball.extract self w).1 = Raise (FatalError (cmdline c)))
    end.
Proof.
  exact (extract_unpacks_before_it_patches Example.tarball_source
           (Example.tarball_world Example.tarball_fs)).
Defined.

(** ** The build tree of a [Git] source *)

Lemma get_hash_any d rev w :
  git.get_hash d rev w
  = (match repos w !! d ≫= (fun r => resolve_commit r rev) with
     | Some (h, _) => Return h
     | None => Raise (FatalError (cmdline (GitShowHash d rev)))
     end, add_trace (GitShowHash d rev) w).
Proof.
  destruct (repos w !! d) as [r|] eqn:Hr; simpl.
  - destruct (resolve_commit r rev) as [[h c]|] eqn:E.
    + now apply (get_hash_at d rev w r h c).
    + now apply (get_hash_fails_at d rev w r).
  - unfold git.get_hash, checked, bind, run_git. simpl. now rewrite Hr.
Qed.

(** The comparison of lines 319 to 325, under its [try]. *)
Lemma same_check_at self w :
  exists l,
    try_except
      (let* commit_hash :=
         GitCache.git_attr git.names "get_hash"
           (git.get_hash (repo_dir self) (commit self)) in
       let* checkout_hash :=
         GitCache.git_attr git.names "get_hash"
           (git.get_hash (build_dir self) "HEAD") in
       ret (bool_decide (commit_hash = checkout_hash)
            && bool_decide (patches self = [])))
      (ret false) w
    = (Return (match pinned_and_built self w with
               | Some (h, h') => bool_decide (h = h') && bool_decide (patches self = [])
               | None => false
               end),
       mkWorld (fs w) (repos w) (network w) (broken w) (log w) (trace w ++ l)) /\
    (is_Some (pinned_and_built self w) ->
     l = [GitShowHash (repo_dir self) (commit self); GitShowHash (build_dir self) "HEAD"]).
Proof.
  unfold try_except, bind, pinned_and_built.
  rewrite !git_attr_shipped by (vm_compute; reflexivity).
  rewrite get_hash_any.
  destruct (repos w !! repo_dir self ≫= _) as [[h c]|].
  - rewrite get_hash_any. cbn [repos add_trace].
    destruct (repos w !! build_dir self ≫= _) as [[h' c']|].
    + eexists. split; [unfold ret, add_trace; simpl; rewrite <- app_assoc; reflexivity|].
      reflexivity.
    + eexists. split; [unfold ret, add_trace; simpl; rewrite <- app_assoc; reflexivity|].
      intros [? [=]].
  - eexists. split; [reflexivity|]. intros [? [=]].
Qed.

Lemma rebuild_yields_true ns self : yields (rebuild ns self) (fun v => v = true).
Proof. unfold rebuild. walk_yields; reflexivity. Qed.

Lemma chmod_at WINDOWS self w :
  (if bool_decide (platform (config self) = WINDOWS)
   then shell.call_tolerant "chmod -R +w .git/" (build_dir self)
   else ret tt) w
  = (Return tt, mkWorld (fs w) (repos w) (network w) (broken w) (log w)
                        (trace w ++ chmod_calls WINDOWS self)).
Proof.
  unfold chmod_calls. case_bool_decide.
  - reflexivity.
  - unfold ret. rewrite app_nil_r. now destruct w.
Qed.

(** [_extract_checkout], by cases. *)
Lemma extract_checkout_unfold WINDOWS self w :
  exists l,
    Git._extract_checkout git.names WINDOWS self w
    = (if bool_decide (is_Some (fs w !! build_dir self)) then
         let w1 := mkWorld (fs w) (repos w) (network w) (broken w) (log w)
                           (trace w ++ chmod_calls WINDOWS self ++ l) in
         if match pinned_and_built self w with
            | Some (h, h') => bool_decide (h = h') && bool_decide (patches self = [])
            | None => false
            end
         then (Return false, w1)
         else (shutil.rmtree (build_dir self) ;;; rebuild git.names self) w1
       else rebuild git.names self w) /\
    (is_Some (pinned_and_built self w) ->
     l = [GitShowHash (repo_dir self) (commit self); GitShowHash (build_dir self) "HEAD"]).
Proof.
  unfold Git._extract_checkout. fold (rebuild git.names self).
  step0. destruct (bool_decide (is_Some (fs w !! build_dir self))).
  2:{ exists [GitShowHash (repo_dir self) (commit self); GitShowHash (build_dir self) "HEAD"].
      split; [step0; reflexivity | reflexivity]. }
  rewrite bind_assoc, (bind_return _ _ _ _ _ (chmod_at WINDOWS self w)).
  match goal with
  | |- context [bind (bind (try_except _ _) _) _ ?w1] =>
      destruct (same_check_at self w1) as (l & E & Hl)
  end.
  rewrite bind_assoc, (bind_return _ _ _ _ _ E).
  exists l. split; [|exact Hl].
  change (pinned_and_built self (mkWorld (fs w) (repos w) (network w) (broken w) (log w)
                                          (trace w ++ chmod_calls WINDOWS self)))
    with (pinned_and_built self w).
  cbn [fs repos network broken log trace]. rewrite <- app_assoc.
  destruct (match pinned_and_built self w with Some _ => _ | None => _ end).
  - step0. reflexivity.
  - rewrite bind_assoc. unfold bind at 1.
    destruct (shutil.rmtree (build_dir self) _) as [[[]|e] w2] eqn:Er.
    + unfold bind at 2. rewrite Er. step0. reflexivity.
    + unfold bind at 1. rewrite Er. reflexivity.
Qed.

(** X10: [Git.extract] returns [False] exactly when the build directory
    exists, the recipe declares no patch, and the pinned commit resolves
    in the cache to the very hash HEAD has in the build tree.  Nothing
    is changed then: the calls made are the two [git show] (after the
    [chmod] on Windows), no file and no repository is touched. *)
Theorem up_to_date_tree_is_kept (WINDOWS : string) (self : Source) (w w' : World) :
  Git.extract git.names WINDOWS self w = (Return false, w')
  <-> is_Some (fs w !! build_dir self) /\
      patches self = [] /\
      (exists h, pinned_and_built self w = Some (h, h)) /\
      w' = mkWorld (fs w) (repos w) (network w) (broken w) (log w)
             (trace w ++ chmod_calls WINDOWS self
              ++ [GitShowHash (repo_dir self) (commit self);
                  GitShowHash (build_dir self) "HEAD"]).
Proof.
  assert (Hloop : forall go_on w1,
            (if go_on : bool
             then for_each (patches self) (Git.apply_one git.names self) ;;; ret true
             else ret false) w1 = (Return false, w') -> go_on = false /\ w1 = w').
  { intros [] w1 H.
    - apply bind_returns in H as (? & ? & _ & [=]).
    - now injection H as ->. }
  destruct (extract_checkout_unfold WINDOWS self w) as (l & E & Hl).
  unfold Git.extract. split.
  - intros H. apply bind_returns in H as (go_on & w1 & H1 & H2).
    apply Hloop in H2 as [-> ->]. rewrite E in H1. clear E.
    destruct (bool_decide (is_Some (fs w !! build_dir self))) eqn:Hthere.
    2:{ now apply rebuild_yields_true in H1. }
    apply bool_decide_eq_true in Hthere. split; [exact Hthere|].
    destruct (pinned_and_built self w) as [[h h']|] eqn:Hp.
    2:{ apply bind_returns in H1 as (? & ? & _ & H1). now apply rebuild_yields_true in H1. }
    destruct (bool_decide (h = h') && bool_decide (patches self = [])) eqn:Hsame.
    2:{ apply bind_returns in H1 as (? & ? & _ & H1). now apply rebuild_yields_true in H1. }
    apply andb_prop in Hsame as [Hh Hpa].
    apply bool_decide_eq_true in Hh, Hpa. subst h'.
    split; [exact Hpa|]. split; [eauto|].
    cbv zeta in H1. injection H1 as <-. now rewrite Hl by eauto.
  - intros (Hthere & Hpa & [h Hp] & ->).
    rewrite bool_decide_eq_true_2, Hp, Hpa in E by exact Hthere.
    rewrite bool_decide_eq_true_2 in E by reflexivity.
    cbv zeta in E. cbn [andb] in E. rewrite Hl in E by eauto.
    rewrite (bind_return _ _ _ _ _ E). reflexivity.
Qed.

(** X10 at work: a build tree at [c2], which is the pin. *)
Lemma up_to_date_tree_is_kept_witness :
  let self := Example.source false "c2" in
  let w := mkWorld {["/cache/pkg" := Dir; "/src/pkg-1.0" := Dir]}
                   {["/cache/pkg" := Example.repo "c2" (Some "c2");
                     "/src/pkg-1.0" := Example.repo "c2" None]} ∅ [] [] [] in
  Git.extract git.names "windows" self w
  = (Return false,
     mkWorld (fs w) (repos w) (network w) (broken w) (log w)
             [GitShowHash "/cache/pkg" "c2"; GitShowHash "/src/pkg-1.0" "HEAD"]).
Proof.
  intros self w.
  apply (proj2 (up_to_date_tree_is_kept "windows" self w
                  (mkWorld (fs w) (repos w) (network w) (broken w) (log w)
                           [GitShowHash "/cache/pkg" "c2";
                            GitShowHash "/src/pkg-1.0" "HEAD"]))).
  split; [vm_compute; eauto|]. split; [reflexivity|].
  split; [exists "c2"; vm_compute; reflexivity | vm_compute; reflexivity].
Defined.

Lemma within_self d : shutil.within d d = true.
Proof. unfold shutil.within. now rewrite bool_decide_eq_true_2. Qed.

(** A hash of the object store names its commit. *)
Lemma resolve_commit_object r rev c :
  objects r !! rev = Some c -> rev <> "HEAD" -> resolve_commit r rev = Some (rev, c).
Proof.
  intros Hc Hne. unfold resolve_commit, rev_parse.
  rewrite bool_decide_eq_false_2 by exact Hne. rewrite Hc. now rewrite Hc.
Qed.

Lemma clone_at bd rd w src :
  fs w !! bd = Some Dir -> repos w !! bd = None -> repos w !! rd = Some src ->
  git.clone bd rd w
  = (Return tt,
     set_repos (<[bd := mkRepo (objects src) (track "origin" src ∅)
                               {["origin" := rd]} (HEAD src) ∅ None]> (repos w))
               (add_trace (GitClone bd rd) w)).
Proof. intros Hf Hb Hs. unfold git.clone. simpl. now rewrite Hf, Hb, Hs. Qed.

Lemma fetch_refs_at bd w r url src :
  repos w !! bd = Some r -> remote_urls r !! "origin" = Some url ->
  repos w !! url = Some src ->
  git.fetch_refs bd w
  = (Return tt,
     set_repos (<[bd := set_refs (filter (fun kv => startswith kv.1 "refs/remotes/" = true)
                                         (refs src) ∪ refs r) r]> (repos w))
               (add_trace (GitFetchRefs bd) w)).
Proof. intros Hb Hu Hs. unfold git.fetch_refs. simpl. now rewrite Hb, Hu, Hs. Qed.

(** Making the build tree where there is none. *)
Lemma rebuild_at self w rc c :
  fs w !! build_dir self = None ->
  repos w !! build_dir self = None ->
  repos w !! repo_dir self = Some rc ->
  objects rc !! commit self = Some c -> commit self <> "HEAD" ->
  exists w' rb,
    rebuild git.names self w = (Return true, w') /\
    repos w' = <[build_dir self := rb]> (repos w) /\
    fs w' = <[build_dir self := Dir]> (fs w) /\
    HEAD rb = Some (commit self) /\ worktree rb = tree c /\
    objects rb = objects rc /\
    refs rb !! "refs/heads/cerbero_build" = Some (commit self) /\
    remote_urls rb = {["origin" := repo_dir self]} /\
    rebase_orig rb = None.
Proof.
  intros Hfs Hrb Hrc Hc Hne.
  assert (Hd : repo_dir self <> build_dir self) by congruence.
  unfold rebuild. step0. rewrite bool_decide_eq_false_2 by (rewrite Hfs; intros [? [=]]).
  cbn [negb]. unfold os.mkdir at 1. unfold bind at 1. rewrite Hfs.
  unfold m_action. step0.
  rewrite git_attr_shipped by (vm_compute; reflexivity).
  unfold git.local_checkout.
  rewrite bind_assoc.
  erewrite bind_return
    by (apply (clone_at _ _ _ rc); [apply lookup_insert_eq | exact Hrb | exact Hrc]).
  rewrite bind_assoc.
  erewrite bind_return.
  2:{ eapply fetch_refs_at.
      - apply lookup_insert_eq.
      - apply lookup_insert_eq.
      - cbn [repos set_repos add_trace]. rewrite lookup_insert_ne by congruence. exact Hrc. }
  erewrite bind_return.
  2:{ apply checked_some. rewrite (run_git_at _ _ _ _ _ (lookup_insert_eq _ _ _)).
      unfold git.op_checkout_B.
      rewrite (resolve_commit_object _ _ c) by (cbn [objects set_refs]; assumption).
      reflexivity. }
  eexists _, _. split; [reflexivity|].
  cbn [repos fs set_repos add_trace]. rewrite !insert_insert_eq.
  split; [reflexivity|]. split; [reflexivity|].
  cbn [snd HEAD worktree objects refs remote_urls rebase_orig set_checkout set_refs].
  repeat split. apply lookup_insert_eq.
Qed.

Lemma rmtree_at d w :
  fs w !! d = Some Dir ->
  shutil.rmtree d w
  = (Return tt,
     set_repos (filter (fun kv => shutil.within d kv.1 = false) (repos w))
       (set_fs (filter (fun kv => shutil.within d kv.1 = false) (fs w)) w)).
Proof. intros H. unfold shutil.rmtree. now rewrite H. Qed.

Lemma removed_tree_gone {A} d (m : gmap string A) :
  filter (fun kv => shutil.within d kv.1 = false) m !! d = None.
Proof.
  apply map_lookup_filter_None. right. intros x _. cbn [fst]. now rewrite within_self.
Qed.

Lemma removed_tree_keeps {A} d (m : gmap string A) k x :
  shutil.within d k = false -> m !! k = Some x ->
  filter (fun kv => shutil.within d kv.1 = false) m !! k = Some x.
Proof. intros Hw Hk. apply map_lookup_filter_Some. now split. Qed.

(** X11: in every other case (no build directory yet, a different or
    unreadable HEAD there, or declared patches) lines 314 to 331 of
    [Git.extract] make the tree anew: for a pin that is a commit hash of
    a cache lying outside the build directory, the build directory then
    holds a repository cloned from the cache, checked out at the pin on
    the branch [cerbero_build], with the cache as its [origin]; the
    cache itself is as it was. *)
Theorem stale_tree_is_made_anew (WINDOWS : string) (self : Source) (w : World)
    (rc : Repo) (c : Commit) :
  fs w !! build_dir self <> Some File ->
  (fs w !! build_dir self = None -> repos w !! build_dir self = None) ->
  shutil.within (build_dir self) (repo_dir self) = false ->
  repos w !! repo_dir self = Some rc ->
  objects rc !! commit self = Some c -> commit self <> "HEAD" ->
  ~ (is_Some (fs w !! build_dir self) /\ patches self = [] /\
     exists h, pinned_and_built self w = Some (h, h)) ->
  exists w' rb,
    Git._extract_checkout git.names WINDOWS self w = (Return true, w') /\
    fs w' !! build_dir self = Some Dir /\
    repos w' !! repo_dir self = Some rc /\
    repos w' !! build_dir self = Some rb /\
    HEAD rb = Some (commit self) /\ worktree rb = tree c /\
    objects rb = objects rc /\
    refs rb !! "refs/heads/cerbero_build" = Some (commit self) /\
    remote_urls rb = {["origin" := repo_dir self]} /\
    rebase_orig rb = None.
Proof.
  intros Hfile Hwf Hout Hrc Hc Hne Hstale.
  assert (Hd : repo_dir self <> build_dir self).
  { intros E. rewrite E, within_self in Hout. discriminate. }
  destruct (extract_checkout_unfold WINDOWS self w) as (l & E & _). rewrite E. clear E.
  assert (Hfin : forall w1,
            fs w1 !! build_dir self = None -> repos w1 !! build_dir self = None ->
            repos w1 !! repo_dir self = Some rc ->
            exists w' rb,
              rebuild git.names self w1 = (Return true, w') /\
              fs w' !! build_dir self = Some Dir /\
              repos w' !! repo_dir self = Some rc /\
              repos w' !! build_dir self = Some rb /\
              HEAD rb = Some (commit self) /\ worktree rb = tree c /\
              objects rb = objects rc /\
              refs rb !! "refs/heads/cerbero_build" = Some (commit self) /\
              remote_urls rb = {["origin" := repo_dir self]} /\
              rebase_orig rb = None).
  { intros w1 H1 H2 H3.
    destruct (rebuild_at self w1 rc c H1 H2 H3 Hc Hne)
      as (w' & rb & Er & Hrepos & Hfs & Hrest).
    exists w', rb. split; [exact Er|]. rewrite Hrepos, Hfs.
    split; [apply lookup_insert_eq|]. split; [now rewrite lookup_insert_ne by congruence|].
    split; [apply lookup_insert_eq | exact Hrest]. }
  destruct (bool_decide (is_Some (fs w !! build_dir self))) eqn:Hthere.
  2:{ apply bool_decide_eq_false in Hthere.
      assert (Hnone : fs w !! build_dir self = None).
      { destruct (fs w !! build_dir self); [exfalso; apply Hthere; eauto | reflexivity]. }
      apply Hfin; auto. }
  apply bool_decide_eq_true in Hthere.
  assert (Hdir : fs w !! build_dir self = Some Dir).
  { destruct Hthere as [[] Hn]; congruence. }
  cbv zeta.
  destruct (match pinned_and_built self w with Some _ => _ | None => _ end) eqn:Hsame.
  { exfalso. apply Hstale. split; [exact Hthere|].
    destruct (pinned_and_built self w) as [[h h']|]; [|discriminate].
    apply andb_prop in Hsame as [Hh Hp]. apply bool_decide_eq_true in Hh, Hp. subst h'.
    split; [exact Hp | eauto]. }
  erewrite bind_return by (apply rmtree_at; exact Hdir).
  apply Hfin; cbn [fs repos set_repos set_fs].
  - apply removed_tree_gone.
  - apply removed_tree_gone.
  - now apply removed_tree_keeps.
Qed.

(** X11 at work: the cache at [c2] and no build tree yet. *)
Lemma stale_tree_is_made_anew_witness :
  let self := Example.patched_source 1 in
  let w := Example.build_world in
  exists w' rb,
    Git._extract_checkout git.names "windows" self w = (Return true, w') /\
    fs w' !! "/src/pkg-1.0" = Some Dir /\
    repos w' !! "/cache/pkg" = Some (Example.repo "c2" (Some "c2")) /\
    repos w' !! "/src/pkg-1.0" = Some rb /\
    HEAD rb = Some "c2" /\ worktree rb = Example.t2 /\
    objects rb = Example.objs /\
    refs rb !! "refs/heads/cerbero_build" = Some "c2" /\
    remote_urls rb = {["origin" := "/cache/pkg"]} /\
    rebase_orig rb = None.
Proof.
  intros self w.
  apply (stale_tree_is_made_anew "windows" self w (Example.repo "c2" (Some "c2"))
           (mkCommit ["c1"] Example.t2));
    try (vm_compute; reflexivity); try (vm_compute; discriminate).
  intros [[n Hn] _]. vm_compute in Hn. discriminate.
Defined.

(** ** What the constructors leave in the handler *)

(** Applying the override of the configuration a second time changes nothing. *)
Lemma py_or_twice o x : py_or o (py_or o x) = py_or o x.
Proof.
  unfold py_or. destruct o as [s|]; [|reflexivity].
  case_bool_decide; reflexivity.
Qed.

(** X12: for a [Git] source the revision [_checkout] brings the cache
    to is the one left in [self.commit]: the override of the
    configuration, applied once by [__init__] and once more by
    [_checkout], gives the same revision both times.  A non-empty
    override wins over the recipe; without one the pin is the commit
    the recipe declares, or [origin/sdk-<version>].  So
    [built_version] reports the hash of the revision that fetch checks
    out. *)
Theorem git_pin_is_what_fetch_checks_out (rcp : Recipe) (cfg : Config) :
  let self := Git.__init__ rcp cfg in
  target_revision self = commit self /\
  (forall forced,
     recipe_commit cfg (recipe_name rcp) = Some forced -> forced <> "" ->
     commit self = forced) /\
  (py_or (recipe_commit cfg (recipe_name rcp)) "" = "" ->
   commit self = default ("origin/sdk-" +:+ recipe_version rcp) (recipe_commit_attr rcp)) /\
  forall w,
    GitCache.built_version git.names self w
    = (let* h := git.get_hash (repo_dir self) (target_revision self) in
       ret (version self +:+ "+git~" +:+ h)) w.
Proof.
  intros self.
  assert (Ht : target_revision self = commit self).
  { unfold target_revision, self, Git.__init__, GitCache.__init__.
    cbn [config name commit]. apply py_or_twice. }
  split; [exact Ht|]. split; [|split].
  - intros forced Hf Hne. unfold self, Git.__init__, GitCache.__init__. cbn [commit].
    rewrite Hf. unfold py_or. now rewrite bool_decide_eq_false_2.
  - intros Hno. unfold self, Git.__init__, GitCache.__init__. cbn [commit].
    unfold py_or in *. destruct (recipe_commit cfg (recipe_name rcp)) as [s|]; [|reflexivity].
    case_bool_decide as Hs; [reflexivity|]. congruence.
  - intros w. unfold GitCache.built_version.
    rewrite git_attr_shipped by (vm_compute; reflexivity). now rewrite Ht.
Qed.

(** X12 at work: a recipe that declares no commit. *)
Lemma git_pin_is_what_fetch_checks_out_witness :
  let self := Git.__init__ (Example.recipe None [] 1) (Example.cfg false) in
  target_revision self = commit self /\
  (forall forced,
     recipe_commit (Example.cfg false) "pkg" = Some forced -> forced <> "" ->
     commit self = forced) /\
  (py_or (recipe_commit (Example.cfg false) "pkg") "" = "" ->
   commit self = "origin/sdk-1.0") /\
  forall w,
    GitCache.built_version git.names self w
    = (let* h := git.get_hash (repo_dir self) (target_revision self) in
       ret (version self +:+ "+git~" +:+ h)) w.
Proof.
  exact (git_pin_is_what_fetch_checks_out (Example.recipe None [] 1) (Example.cfg false)).
Defined.

(** X13: whatever the recipe declares, once the first half of [fetch]
    has run on a cache that holds a repository, the remote [origin] is
    registered there: with the url the recipe declares for it, and
    with [<git_root>/<name>.git] when it declares none.  Every other
    declared remote is registered with its url too. *)
Theorem origin_is_always_registered (rcp : Recipe) (cfg : Config) (pin : string)
    (w : World) (r : Repo) :
  let self := GitCache.__init__ rcp cfg pin in
  cache self w = Some r ->
  exists r',
    cache self (GitCache._fetch_remotes git.names self w).2 = Some r' /\
    remote_urls r' !! "origin"
    = Some (default (git_root cfg +:+ "/" +:+ recipe_name rcp +:+ ".git")
                    (recipe_remotes rcp ≫= (fun declared => declared !! "origin"))) /\
    forall name url,
      recipe_remotes rcp ≫= (fun declared => declared !! name) = Some url ->
      remote_urls r' !! name = Some url.
Proof.
  intros self Hr.
  destruct (fetch_remotes_at self w r Hr) as (w1 & r1 & E & _ & Hurls1).
  pose proof (fetch_all_keeps (network w1) r1) as (_ & _ & _ & F4 & _).
  exists (op_fetch_all (network w1) r1).2. rewrite E.
  split; [unfold cache; simpl; apply lookup_insert_eq|].
  assert (Hurls : forall name,
            remote_urls (op_fetch_all (network w1) r1).2 !! name
            = match remotes self !! name with
              | Some url => Some url
              | None => remote_urls r !! name
              end) by (intros name; now rewrite F4, Hurls1).
  assert (Hrem : forall name url,
            recipe_remotes rcp ≫= (fun declared => declared !! name) = Some url ->
            remotes self !! name = Some url).
  { intros name url H. unfold self, GitCache.__init__. cbn [remotes].
    destruct (recipe_remotes rcp) as [declared|]; [|discriminate]. cbn in H.
    unfold default, from_option, id.
    destruct (declared !! "origin") eqn:Ho; [exact H|].
    rewrite lookup_insert_ne; [exact H|]. intros <-. congruence. }
  split.
  - rewrite Hurls. unfold self, GitCache.__init__. cbn [remotes].
    destruct (recipe_remotes rcp) as [declared|]; cbn [mbind option_bind];
      unfold default, from_option, id.
    + destruct (declared !! "origin") as [u|] eqn:Ho.
      * now rewrite Ho.
      * now rewrite lookup_insert_eq.
    + rewrite lookup_empty. now rewrite lookup_insert_eq.
  - intros name url H. rewrite Hurls. now rewrite (Hrem _ _ H).
Qed.

(** X13 at work: a recipe that declares no remote. *)
Lemma origin_is_always_registered_witness :
  let self := GitCache.__init__ (Example.recipe (Some "c2") [] 1) (Example.cfg false) "c2" in
  let w := Example.world (Example.repo "c1" None) in
  exists r',
    cache self (GitCache._fetch_remotes git.names self w).2 = Some r' /\
    remote_urls r' !! "origin" = Some "git://example.org/pkg.git" /\
    forall name url,
      (None : option (gmap string string)) ≫= (fun declared => declared !! name) = Some url ->
      remote_urls r' !! name = Some url.
Proof.
  intros self w.
  apply (origin_is_always_registered (Example.recipe (Some "c2") [] 1) (Example.cfg false)
           "c2" w (Example.repo "c1" None)).
  vm_compute. reflexivity.
Defined.

(** X14: a [LocalTarball] pins [origin/sdk-<version>] whatever the
    recipe declares, and its [__init__] does not apply the override of
    the configuration.  [_checkout] does: with a non-empty override
    the cache is brought to the forced revision, while [built_version]
    still reports the hash of [origin/sdk-<version>]. *)
Theorem local_tarball_pin_ignores_the_override (rcp : Recipe) (cfg : Config)
    (forced : string) :
  recipe_commit cfg (recipe_name rcp) = Some forced ->
  forced <> "" ->
  let self := LocalTarball.__init__ rcp cfg in
  commit self = "origin/sdk-" +:+ recipe_version rcp /\
  target_revision self = forced /\
  forall w,
    GitCache.built_version git.names self w
    = (let* h := git.get_hash (repo_dir self) ("origin/sdk-" +:+ recipe_version rcp) in
       ret (version self +:+ "+git~" +:+ h)) w.
Proof.
  intros Hf Hne self.
  assert (Hc : commit self = "origin/sdk-" +:+ recipe_version rcp) by reflexivity.
  split; [exact Hc|]. split.
  - unfold target_revision, self, LocalTarball.__init__, GitCache.__init__.
    cbn [config name commit]. rewrite Hf. unfold py_or.
    now rewrite bool_decide_eq_false_2.
  - intros w. unfold GitCache.built_version.
    rewrite git_attr_shipped by (vm_compute; reflexivity). now rewrite Hc.
Qed.

(** X14 at work: the configuration forces [c1]. *)
Lemma local_tarball_pin_ignores_the_override_witness :
  let rcp := Example.recipe (Some "c0") [] 1 in
  let cfg := mkConfig "git://example.org" "/cache" "/src" "linux" false {["pkg" := "c1"]} in
  let self := LocalTarball.__init__ rcp cfg in
  commit self = "origin/sdk-1.0" /\
  target_revision self = "c1" /\
  forall w,
    GitCache.built_version git.names self w
    = (let* h := git.get_hash (repo_dir self) "origin/sdk-1.0" in
       ret (version self +:+ "+git~" +:+ h)) w.
Proof.
  intros rcp cfg.
  apply (local_tarball_pin_ignores_the_override rcp cfg "c1"); [reflexivity | discriminate].
Defined.

(** ** [git.py], one function at a time *)



(** ** Listing tags *)

Lemma append_empty_r (s : string) : s +:+ "" = s.
Proof.
  induction s as [|a s IH]; [reflexivity|].
  change (String a (s +:+ "") = String a s). now rewrite IH.
Qed.

Lemma rstrip_tag t s : spaceless t = true -> py_rstrip (t +:+ s) = t +:+ py_rstrip s.
Proof.
  induction t as [|a t IH]; intros Ht; [reflexivity|].
  apply andb_prop in Ht as [Ha Ht]. apply negb_true_iff in Ha.
  change (String a t +:+ s) with (String a (t +:+ s)). cbn [py_rstrip]. rewrite Ha. cbn [andb].
  now rewrite (IH Ht).
Qed.

Lemma join_lines_empty ts : Forall tag_like ts -> join_lines ts = "" -> ts = [].
Proof.
  destruct 1 as [|t ts [Hne _] _]; [reflexivity|]. intros H. exfalso.
  destruct t as [|a t]; [now apply Hne|]. destruct ts; discriminate.
Qed.

Lemma rstrip_lines ts :
  Forall tag_like ts ->
  py_rstrip (foldr (fun t out => t +:+ String newline out) "" ts) = join_lines ts.
Proof.
  induction 1 as [|t ts [Hne Hs] Hts IH]; [reflexivity|].
  cbn [foldr]. rewrite (rstrip_tag _ _ Hs). cbn [py_rstrip]. rewrite IH.
  destruct ts as [|t2 ts].
  - cbn. apply append_empty_r.
  - rewrite bool_decide_eq_false_2.
    + reflexivity.
    + intros E. now apply (join_lines_empty _ Hts) in E.
Qed.

Lemma lstrip_lines ts : Forall tag_like ts -> py_lstrip (join_lines ts) = join_lines ts.
Proof.
  destruct 1 as [|t ts [Hne Hs] _]; [reflexivity|].
  destruct t as [|a t]; [now contradiction Hne|].
  apply andb_prop in Hs as [Ha _]. apply negb_true_iff in Ha.
  destruct ts; cbn [join_lines]; [|change (String a t +:+ ?s) with (String a (t +:+ s))];
    cbn [py_lstrip]; now rewrite Ha.
Qed.

Lemma split_tag t s :
  spaceless t = true -> py_split newline (t +:+ String newline s) = t :: py_split newline s.
Proof.
  induction t as [|a t IH]; intros Ht.
  - reflexivity.
  - apply andb_prop in Ht as [Ha Ht]. apply negb_true_iff in Ha.
    change (String a t +:+ ?x) with (String a (t +:+ x)). cbn [py_split].
    destruct (Ascii.eqb a newline) eqn:E.
    + apply Ascii.eqb_eq in E. subst a. discriminate.
    + now rewrite (IH Ht).
Qed.

Lemma split_one t : spaceless t = true -> py_split newline t = [t].
Proof.
  induction t as [|a t IH]; intros Ht; [reflexivity|].
  apply andb_prop in Ht as [Ha Ht]. apply negb_true_iff in Ha. cbn [py_split].
  destruct (Ascii.eqb a newline) eqn:E.
  - apply Ascii.eqb_eq in E. subst a. discriminate.
  - now rewrite (IH Ht).
Qed.

(** Splitting what was joined gives the pieces back. *)
Lemma split_join_lines ts :
  Forall tag_like ts -> ts <> [] -> py_split newline (join_lines ts) = ts.
Proof.
  induction 1 as [|t ts [Hne Hs] Hts IH]; [done|]. intros _.
  destruct ts as [|t2 ts].
  - now apply split_one.
  - change (join_lines (t :: t2 :: ts))
      with (t +:+ String newline (join_lines (t2 :: ts))).
    rewrite (split_tag _ _ Hs). now rewrite IH.
Qed.

(** X16: [list_tags] on a repository whose tag names are names git
    accepts (not empty, no white space): whether [fail] is set or not,
    the value is the list of the tags, one element for each, as git
    printed them; and when the repository has no tag the value is the
    empty string, not an empty list.  The call is the one change. *)
Theorem list_tags_gives_the_tags (git_dir : string) (fail : bool) (w : World) (r : Repo) :
  repos w !! git_dir = Some r ->
  Forall tag_like (tag_names r) ->
  git_tools.list_tags git_dir fail w
  = (Return (match tag_names r with
             | [] => inl ""
             | _ => inr (tag_names r)
             end),
     add_trace (ShellCall "git tag -l" git_dir) w).
Proof.
  intros Hr Hts. unfold git_tools.list_tags.
  assert (Hq : run_git (ShellCall "git tag -l" git_dir) git_dir op_tag_list w
               = (Return (op_tag_list r).1, add_trace (ShellCall "git tag -l" git_dir) w))
    by (now apply run_git_query).
  assert (Hout : check_call (ShellCall "git tag -l" git_dir) git_dir op_tag_list fail w
                 = (Return (foldr (fun t out => t +:+ String newline out) "" (tag_names r)),
                    add_trace (ShellCall "git tag -l" git_dir) w)).
  { unfold check_call. destruct fail.
    - now apply checked_some.
    - now rewrite (bind_return _ _ _ _ _ Hq). }
  rewrite (bind_return _ _ _ _ _ Hout). unfold py_strip.
  rewrite (rstrip_lines _ Hts), (lstrip_lines _ Hts).
  destruct (tag_names r) as [|t ts] eqn:E.
  - reflexivity.
  - rewrite bool_decide_eq_false_2.
    + cbn [negb]. now rewrite (split_join_lines _ Hts).
    + intros H. now apply (join_lines_empty _ Hts) in H.
Qed.

(** X16 at work: two tags and a branch. *)
Lemma list_tags_gives_the_tags_witness :
  let r := mkRepo Example.objs
                  {["refs/tags/v0.9" := "c0"; "refs/tags/v1.0" := "c1";
                    "refs/heads/master" := "c2"]} ∅ (Some "c2") Example.t2 None in
  let w := mkWorld ∅ {["/cache/pkg" := r]} ∅ [] [] [] in
  git_tools.list_tags "/cache/pkg" true w
  = (Return (match tag_names r with
             | [] => inl ""
             | _ => inr (tag_names r)
             end),
     add_trace (ShellCall "git tag -l" "/cache/pkg") w).
Proof.
  intros r w. apply (list_tags_gives_the_tags "/cache/pkg" true w r).
  - reflexivity.
  - vm_compute. repeat (constructor; [split; [intros [=] | reflexivity] |]). constructor.
Defined.

(** ** A repository for a directory *)


